(** * A shallow embedding of the MCP bridge service

    The development follows the three source files of the repository:

    - [backend/mcp_service/mcp_client.py]: the [MCPClient] object, its
      [AsyncExitStack], [connect_to_server], [get_mcp_tools], [cleanup]
      and the stand-alone driver [async_main];
    - [backend/mcp_service/mcp_api.py]: [lifespan], [generate_plan],
      [generate_user_response] and the [chat] endpoint;
    - [backend/tool_services/email_service.py]: [EmailService.send_email]
      with its two directory look-ups.

    The code of the bridge is embedded in a state-and-exception monad
    over a [World] (the client object, the live subprocesses and the log
    of calls made to the libraries), parameterised by an [Env] that
    answers every call the code makes to the outside: the file system,
    the MCP SDK, the HTTP client and pydantic.  Each answer may depend on
    the whole history of calls, so a theorem quantified over [Env] covers
    every behaviour of the collaborators, failures included.  The email
    service runs on the server side of the session: its functions take
    the service object (the directory and the Gmail API) and the
    libraries they call ([EmailService.Library]) as arguments.  Console
    output ([print], [traceback.print_exc]) is not observable here and is
    left out. *)

From Stdlib Require Import ZArith List Bool Ascii String Lia.
From stdpp Require Import base option list strings pretty gmap.

Set Warnings "-register-all".
Local Open Scope Z_scope.
Local Open Scope string_scope.
Local Open Scope list_scope.

(** ** Python strings

    [str] values are modelled by Rocq strings (sequences of bytes, a
    character outside ASCII by its UTF-8 encoding).  What Python computes
    from the Unicode character database is not computed here.  [lower]
    and [strip] below are [str.lower] and [str.strip] on ASCII text only,
    and serve to run examples; the email service takes the two methods
    as parameters (see [EmailService.Library]).  [repr] is [repr(s)] for
    text whose characters outside ASCII are printable ones, which
    Python leaves as they are: it words the exceptions raised for the
    keys and the type names written in the code, and serves the
    examples; for text that comes from outside, [repr] is a parameter
    as well ([repr] of [Env] and of [EmailService.Library]). *)

Module PyStr.

Definition code (c : ascii) : nat := nat_of_ascii c.

Definition dquote : ascii := ascii_of_nat 34.
Definition squote : ascii := ascii_of_nat 39.
Definition backslash : ascii := ascii_of_nat 92.

Definition lower_ascii (c : ascii) : ascii :=
  if ((65 <=? code c) && (code c <=? 90))%nat
  then ascii_of_nat (code c + 32) else c.

(** [s.lower()] for ASCII text. *)
Fixpoint lower (s : string) : string :=
  match s with
  | EmptyString => EmptyString
  | String c s' => String (lower_ascii c) (lower s')
  end.

(** The ASCII white space as [str.strip()] sees it: tab to carriage
    return, the four separators 28-31 and the space. *)
Definition is_space (c : ascii) : bool :=
  (((9 <=? code c) && (code c <=? 13))
   || ((28 <=? code c) && (code c <=? 32)))%nat.

Fixpoint lstrip (s : string) : string :=
  match s with
  | EmptyString => EmptyString
  | String c s' => if is_space c then lstrip s' else s
  end.

Fixpoint rstrip (s : string) : string :=
  match s with
  | EmptyString => EmptyString
  | String c s' =>
      match rstrip s' with
      | EmptyString => if is_space c then EmptyString else String c EmptyString
      | r => String c r
      end
  end.

(** [s.strip()] for ASCII text. *)
Definition strip (s : string) : string := rstrip (lstrip s).

(** [sep.join(parts)] *)
Fixpoint join (sep : string) (parts : list string) : string :=
  match parts with
  | [] => EmptyString
  | [p] => p
  | p :: rest => p +:+ sep +:+ join sep rest
  end.

Fixpoint contains (c : ascii) (s : string) : bool :=
  match s with
  | EmptyString => false
  | String c' s' => Ascii.eqb c c' || contains c s'
  end.

Definition hex_digit (n : nat) : ascii :=
  if (n <? 10)%nat then ascii_of_nat (48 + n) else ascii_of_nat (87 + n).

Definition escape (quote c : ascii) : string :=
  if Ascii.eqb c quote || Ascii.eqb c backslash then String backslash (String c EmptyString)
  else if (code c =? 9)%nat then String backslash "t"
  else if (code c =? 10)%nat then String backslash "n"
  else if (code c =? 13)%nat then String backslash "r"
  else if ((code c <? 32) || (code c =? 127))%nat
       then String backslash
              (String "x" (String (hex_digit (code c / 16))
                             (String (hex_digit (code c mod 16)) EmptyString)))
  else String c EmptyString.

Fixpoint escape_all (quote : ascii) (s : string) : string :=
  match s with
  | EmptyString => EmptyString
  | String c s' => escape quote c +:+ escape_all quote s'
  end.

(** [repr(s)]: single quotes, unless the text holds a single quote and
    no double quote. *)
Definition repr (s : string) : string :=
  let quote := if contains squote s && negb (contains dquote s) then dquote else squote in
  String quote (escape_all quote s +:+ String quote EmptyString).

(** [s.startswith(p)] *)
Fixpoint startswith (p s : string) : bool :=
  match p, s with
  | EmptyString, _ => true
  | String a p', String b s' => Ascii.eqb a b && startswith p' s'
  | String _ _, EmptyString => false
  end.

Fixpoint endswith_char (c : ascii) (s : string) : bool :=
  match s with
  | EmptyString => false
  | String c' EmptyString => Ascii.eqb c c'
  | String _ s' => endswith_char c s'
  end.

(** [s.split(sep)] for a one-character separator. *)
Fixpoint split (sep : ascii) (s : string) : list string :=
  match s with
  | EmptyString => [EmptyString]
  | String c s' =>
      if Ascii.eqb c sep then EmptyString :: split sep s'
      else match split sep s' with
           | [] => [String c EmptyString]
           | w :: ws => String c w :: ws
           end
  end.

(** The characters of a string, as iteration over a [str] yields them. *)
Fixpoint chars (s : string) : list string :=
  match s with
  | EmptyString => []
  | String c s' => String c EmptyString :: chars s'
  end.

End PyStr.

(** ** [os.path] (POSIX flavour) *)

Module OsPath.

Definition isabs (p : string) : bool := PyStr.startswith "/" p.

(** [posixpath.join(a, p)] *)
Definition join (a p : string) : string :=
  if PyStr.startswith "/" p then p
  else if String.eqb a EmptyString || PyStr.endswith_char "/" a then a +:+ p
  else a +:+ "/" +:+ p.

(** One turn of the component loop of [normpath]; the stack of kept
    components is held newest first. *)
Definition norm_step (rooted : bool) (new_comps : list string) (comp : string)
  : list string :=
  if String.eqb comp EmptyString || String.eqb comp "." then new_comps
  else if negb (String.eqb comp "..") then comp :: new_comps
  else match new_comps with
       | [] => if rooted then [] else [comp]
       | last :: rest => if String.eqb last ".." then comp :: new_comps else rest
       end.

Definition initial_slashes (path : string) : nat :=
  if PyStr.startswith "/" path then
    if PyStr.startswith "//" path && negb (PyStr.startswith "///" path) then 2 else 1
  else 0.

Definition slashes (n : nat) : string :=
  match n with 0%nat => EmptyString | 1%nat => "/" | _ => "//" end.

(** [posixpath.normpath(path)] *)
Definition normpath (path : string) : string :=
  if String.eqb path EmptyString then "."
  else
    let n := initial_slashes path in
    let comps := fold_left (norm_step (negb (n =? 0)%nat)) (PyStr.split "/" path) [] in
    let p := slashes n +:+ PyStr.join "/" (rev comps) in
    if String.eqb p EmptyString then "." else p.

(** [os.path.abspath(path)], with [cwd] the value of [os.getcwd()]. *)
Definition abspath (cwd path : string) : string :=
  normpath (if isabs path then path else join cwd path).

End OsPath.

(** ** Exceptions and outcomes *)

(** A raised exception, by the name of its class and the text [str(e)]
    gives.  [Exc] stands for the classes derived from [Exception], which
    an [except Exception] clause catches; [BaseExc] for those that are
    not ([CancelledError], [KeyboardInterrupt], [SystemExit]).
    [HTTPException] is FastAPI's, raised by the endpoints. *)
Inductive PyExc : Type :=
| Exc (cls msg : string)
| BaseExc (cls msg : string)
| HTTPException (status_code : Z) (detail : string).

Definition exc_class (e : PyExc) : string :=
  match e with
  | Exc cls _ | BaseExc cls _ => cls
  | HTTPException _ _ => "HTTPException"
  end.

(** [isinstance(e, Exception)] *)
Definition is_Exception (e : PyExc) : bool :=
  match e with BaseExc _ _ => false | _ => true end.

(** [str(e)]; an [HTTPException] prints as its status code, a colon and
    its detail. *)
Definition exc_str (e : PyExc) : string :=
  match e with
  | Exc _ msg | BaseExc _ msg => msg
  | HTTPException status_code detail => pretty status_code +:+ ": " +:+ detail
  end.

Inductive Res (A : Type) : Type :=
| Return (a : A)
| Raise (e : PyExc).
Arguments Return {A} a.
Arguments Raise {A} e.

Definition KeyError (key : string) : PyExc := Exc "KeyError" (PyStr.repr key).
Definition TypeError (msg : string) : PyExc := Exc "TypeError" msg.
Definition AttributeError (msg : string) : PyExc := Exc "AttributeError" msg.
Definition IndexError (msg : string) : PyExc := Exc "IndexError" msg.

(** ** JSON values

    What [response.json()] yields and what the code builds for request
    bodies: dictionaries keep their insertion order, as Python's do. *)

Inductive Json : Type :=
| JNull
| JBool (b : bool)
| JInt (n : Z)
| JFloat (lexeme : string)
| JStr (s : string)
| JArr (items : list Json)
| JObj (fields : list (string * Json)).

Definition type_name (v : Json) : string :=
  match v with
  | JNull => "NoneType"
  | JBool _ => "bool"
  | JInt _ => "int"
  | JFloat _ => "float"
  | JStr _ => "str"
  | JArr _ => "list"
  | JObj _ => "dict"
  end.

Fixpoint assoc (key : string) (fields : list (string * Json)) : option Json :=
  match fields with
  | [] => None
  | (k, v) :: rest => if String.eqb k key then Some v else assoc key rest
  end.

(** [v.get(key, default)] *)
Definition py_get (v : Json) (key : string) (default : Json) : Res Json :=
  match v with
  | JObj fields => Return (match assoc key fields with Some x => x | None => default end)
  | _ => Raise (AttributeError (PyStr.repr (type_name v) +:+ " object has no attribute 'get'"))
  end.

(** [v[key]] for a string key. *)
Definition py_getitem (v : Json) (key : string) : Res Json :=
  match v with
  | JObj fields =>
      match assoc key fields with
      | Some x => Return x
      | None => Raise (KeyError key)
      end
  | JArr _ => Raise (TypeError "list indices must be integers or slices, not str")
  | JStr _ => Raise (TypeError "string indices must be integers, not 'str'")
  | _ => Raise (TypeError (PyStr.repr (type_name v) +:+ " object is not subscriptable"))
  end.

(** [v[0]] *)
Definition py_getitem0 (v : Json) : Res Json :=
  match v with
  | JArr (x :: _) => Return x
  | JArr [] => Raise (IndexError "list index out of range")
  | JStr (String c _) => Return (JStr (String c EmptyString))
  | JStr EmptyString => Raise (IndexError "string index out of range")
  | JObj _ => Raise (Exc "KeyError" "0")
  | _ => Raise (TypeError (PyStr.repr (type_name v) +:+ " object is not subscriptable"))
  end.

(** The items a [for] loop over [v] visits. *)
Definition py_iter (v : Json) : Res (list Json) :=
  match v with
  | JArr items => Return items
  | JObj fields => Return (map (fun kv => JStr (fst kv)) fields)
  | JStr s => Return (map JStr (PyStr.chars s))
  | _ => Raise (TypeError (PyStr.repr (type_name v) +:+ " object is not iterable"))
  end.

(** [v == s] for a string literal [s]. *)
Definition py_eq_str (v : Json) (s : string) : bool :=
  match v with
  | JStr s' => String.eqb s' s
  | _ => false
  end.

(** ** The MCP SDK as the client sees it *)

Record StdioServerParameters : Type := { command : string; args : list string }.

(** A launched server subprocess. *)
Record Process : Type := { pid : nat; params : StdioServerParameters }.

Inductive Stream : Type :=
| ReadStream (of_pid : nat)
| WriteStream (of_pid : nat).

Record ClientSession : Type := { read_stream : Stream; write_stream : Stream }.

(** The asynchronous context managers the client enters; the exit stack
    holds one exit callback for each. *)
Inductive Ctx : Type :=
| StdioClient (p : Process)
| ClientSessionCtx (s : ClientSession).

(** A tool entry of [ListToolsResult.tools]. *)
Record Tool : Type := { name : string; description : option string; inputSchema : Json }.

Inductive ContentBlock : Type :=
| TextContent (text : string)
| ImageContent (data mimeType : string)
| AudioContent (data mimeType : string)
| EmbeddedResource (resource : Json).

Record CallToolResult : Type := { content : list ContentBlock; isError : bool }.

(** ** The HTTP client

    A request as [httpx.AsyncClient(timeout=...).post(url, headers=...,
    json=...)] sends it, the timeout in seconds; a response by what its
    two methods used here do. *)

Record Request : Type := {
  url : string;
  headers : list (string * option string);
  timeout : Z;
  json_body : Json
}.

Record Response : Type := {
  raise_for_status : Res unit;
  json : Res Json
}.

(** ** Calls to the outside, and the environment that answers them *)

Inductive Event : Type :=
| EvSpawn (p : StdioServerParameters)   (* entering stdio_client(p) *)
| EvSessionEnter                        (* entering ClientSession(stdio, write) *)
| EvInitialize                          (* session.initialize() *)
| EvAclose                              (* exit_stack.aclose() *)
| EvExit (c : Ctx)                      (* the exit callback of c *)
| EvListTools                           (* session.list_tools() *)
| EvCallTool (tool arguments : Json)    (* session.call_tool(tool, arguments=...) *)
| EvHttpPost (req : Request).           (* client.post(...) *)

(** What an exit callback does with the exception it is handed: return
    (a true value swallows the exception) or raise. *)
Inductive ExitOutcome : Type :=
| ExitReturn (suppress : bool)
| ExitRaise (e : PyExc).

(** The environment: the process environment and the file system, the
    MCP SDK, the HTTP client, the text pydantic gives its validation
    error for a value that [ChatResponse] refuses, and [repr] on strings,
    which escapes the characters that the Unicode character database
    does not class as printable. *)
Record Env : Type := {
  getenv : string -> option string;
  getcwd : string;
  path_exists : string -> bool;
  stdio_client_enter : list Event -> StdioServerParameters -> Res unit;
  client_session_enter : list Event -> Res unit;
  session_initialize : list Event -> Res unit;
  ctx_exit : list Event -> Ctx -> option PyExc -> ExitOutcome;
  session_list_tools : list Event -> Res (list Tool);
  session_call_tool : list Event -> Json -> Json -> Res CallToolResult;
  http_post : list Event -> Request -> Res Response;
  validation_error : Json -> string;
  repr : string -> string
}.

(** ** The state *)

Record MCPClient : Type := {
  session : option ClientSession;
  exit_stack : list Ctx;
  stdio : option Stream;
  write : option Stream
}.

(** [MCPClient()] *)
Definition MCPClient_new : MCPClient :=
  {| session := None; exit_stack := []; stdio := None; write := None |}.

Record World : Type := {
  client : MCPClient;
  running : list Process;
  trace : list Event
}.

Definition initial_world : World :=
  {| client := MCPClient_new; running := []; trace := [] |}.

Definition with_client (f : MCPClient -> MCPClient) (w : World) : World :=
  {| client := f (client w); running := running w; trace := trace w |}.

Definition with_running (f : list Process -> list Process) (w : World) : World :=
  {| client := client w; running := f (running w); trace := trace w |}.

Definition log (ev : Event) (w : World) : World :=
  {| client := client w; running := running w; trace := trace w ++ [ev] |}.

(** ** The monad *)

Definition M (A : Type) : Type := Env -> World -> Res A * World.

#[global] Instance M_ret : MRet M := fun A a _ w => (Return a, w).

#[global] Instance M_bind : MBind M := fun A B f m env w =>
  match m env w with
  | (Return a, w') => f a env w'
  | (Raise e, w') => (Raise e, w')
  end.

#[global] Instance M_throw : MThrow PyExc M := fun A e _ w => (Raise e, w).

Definition ask : M Env := fun env w => (Return env, w).
Definition get : M World := fun _ w => (Return w, w).
Definition modify (f : World -> World) : M unit := fun _ w => (Return tt, f w).
Definition lift {A} (r : Res A) : M A := fun _ w => (r, w).

(** A call to the outside: logged, then answered from the history that
    precedes it. *)
Definition call {A} (ev : Event) (answer : Env -> list Event -> Res A) : M A :=
  fun env w => (answer env (trace w), log ev w).

(** [try: body  except Exception as e: handler(e)] *)
Definition try_except {A} (body : M A) (handler : PyExc -> M A) : M A :=
  fun env w =>
    match body env w with
    | (Raise e, w') => if is_Exception e then handler e env w' else (Raise e, w')
    | ok => ok
    end.

(** [try: body  finally: final] *)
Definition try_finally {A} (body : M A) (final : M unit) : M A :=
  fun env w =>
    match body env w with
    | (r, w') =>
        match final env w' with
        | (Return _, w'') => (r, w'')
        | (Raise e, w'') => (Raise e, w'')
        end
    end.

(** ** [contextlib.AsyncExitStack] *)

Definition push (c : Ctx) (cl : MCPClient) : MCPClient :=
  {| session := session cl; exit_stack := c :: exit_stack cl;
     stdio := stdio cl; write := write cl |}.

Definition set_exit_stack (cs : list Ctx) (cl : MCPClient) : MCPClient :=
  {| session := session cl; exit_stack := cs; stdio := stdio cl; write := write cl |}.

Definition set_transport (r w : Stream) (cl : MCPClient) : MCPClient :=
  {| session := session cl; exit_stack := exit_stack cl; stdio := Some r; write := Some w |}.

Definition set_session (s : ClientSession) (cl : MCPClient) : MCPClient :=
  {| session := Some s; exit_stack := exit_stack cl; stdio := stdio cl; write := write cl |}.

(** [exit_stack.enter_async_context(stdio_client(server_params))]: the
    SDK launches the server; when that succeeds the subprocess is alive
    and the exit callback is pushed, when it raises nothing is pushed. *)
Definition enter_stdio_client (server_params : StdioServerParameters) : M (Stream * Stream) :=
  w ← get;
  call (EvSpawn server_params) (fun env h => stdio_client_enter env h server_params);;
  let p := {| pid := length (trace w); params := server_params |} in
  modify (with_running (cons p));;
  modify (with_client (push (StdioClient p)));;
  mret (ReadStream (pid p), WriteStream (pid p)).

(** [exit_stack.enter_async_context(ClientSession(stdio, write))] *)
Definition enter_client_session (r w : Stream) : M ClientSession :=
  let s := {| read_stream := r; write_stream := w |} in
  call EvSessionEnter client_session_enter;;
  modify (with_client (push (ClientSessionCtx s)));;
  mret s.

Definition terminate (p : Process) (ps : list Process) : list Process :=
  List.filter (fun q => negb (pid q =? pid p)%nat) ps.

(** Leaving [stdio_client] ends the subprocess it launched, whatever the
    callback then returns or raises. *)
Definition release_process (c : Ctx) (ps : list Process) : list Process :=
  match c with
  | StdioClient p => terminate p ps
  | ClientSessionCtx _ => ps
  end.

Definition release (c : Ctx) : World -> World := with_running (release_process c).

(** The loop of [AsyncExitStack.__aexit__]: callbacks are popped last
    entered first; each is handed the exception pending so far, may
    swallow it, and an exception it raises becomes the pending one. *)
Fixpoint run_exit_callbacks (callbacks : list Ctx) (exc : option PyExc)
    (pending_raise : bool) : M (option PyExc * bool) :=
  match callbacks with
  | [] => mret (exc, pending_raise)
  | cb :: rest =>
      modify (with_client (set_exit_stack rest));;
      out ← call (EvExit cb) (fun env h => Return (ctx_exit env h cb exc));
      modify (release cb);;
      match out with
      | ExitReturn true => run_exit_callbacks rest None false
      | ExitReturn false => run_exit_callbacks rest exc pending_raise
      | ExitRaise e => run_exit_callbacks rest (Some e) true
      end
  end.

(** [exit_stack.aclose()] *)
Definition aclose : M unit :=
  w ← get;
  modify (log EvAclose);;
  '(exc, pending_raise) ← run_exit_callbacks (exit_stack (client w)) None false;
  match exc, pending_raise with
  | Some e, true => mthrow e
  | _, _ => mret tt
  end.

(** ** [mcp_client.py] *)

Definition FileNotFoundError (server_path : string) : PyExc :=
  Exc "FileNotFoundError" ("❌ Server sxcript not found: " +:+ server_path).

(** [MCPClient.connect_to_server] *)
Definition connect_to_server (server_script_path : string) : M unit :=
  env ← ask;
  let server_path := OsPath.abspath (getcwd env) server_script_path in
  if negb (path_exists env server_path) then mthrow (FileNotFoundError server_path)
  else
    let server_params := {| command := "python"; args := [server_path] |} in
    stdio_transport ← enter_stdio_client server_params;
    modify (with_client (set_transport (fst stdio_transport) (snd stdio_transport)));;
    s ← enter_client_session (fst stdio_transport) (snd stdio_transport);
    modify (with_client (set_session s));;
    call EvInitialize session_initialize.

Definition opt_str (o : option string) : Json :=
  match o with Some s => JStr s | None => JNull end.

(** The dictionary built for one tool by the comprehension of
    [get_mcp_tools]. *)
Definition descriptor (tool : Tool) : Json :=
  JObj [("name", JStr (name tool));
        ("description", opt_str (description tool));
        ("input_schema", inputSchema tool)].

(** [MCPClient.get_mcp_tools] *)
Definition get_mcp_tools : M (list Json) :=
  w ← get;
  match session (client w) with
  | None => mthrow (AttributeError "'NoneType' object has no attribute 'list_tools'")
  | Some _ =>
      tools ← call EvListTools session_list_tools;
      mret (map descriptor tools)
  end.

(** [MCPClient.cleanup] *)
Definition cleanup : M unit :=
  try_except aclose (fun _ => mret tt).

(** [async_main], on a client of its own. *)
Definition async_main : M unit :=
  modify (with_client (fun _ => MCPClient_new));;
  try_finally
    (try_except (connect_to_server "mcp_service/mcp_server.py") (fun _ => mret tt))
    cleanup.

(** [main] *)
Definition main : M unit :=
  try_except async_main (fun _ => mret tt).

(** ** [mcp_api.py]: the service life cycle *)

(** [lifespan(app)]: [serving] is what happens while the generator is
    suspended at its [yield]: the requests served, ending in a normal
    resumption (shutdown) or in an exception thrown into the generator. *)
Definition lifespan (serving : M unit) : M unit :=
  try_finally
    (connect_to_server "mcp_server.py";; serving)
    (try_except cleanup (fun _ => mret tt)).

(** ** [mcp_api.py]: the completion gateway *)

Definition nl : string := String (ascii_of_nat 10) EmptyString.
Definition dq : string := String PyStr.dquote EmptyString.

(** The f-string of [generate_plan]. *)
Definition plan_prompt (user_message : string) : string :=
  nl +:+ "    Please respond with only valid JSON, no extra commentary or explanation. The JSON should be properly formatted."
  +:+ nl +:+ "    Use only the tools given. If the prompt doesn't require a tool, return the tool "
  +:+ dq +:+ "none" +:+ dq +:+ " with no parameters. Don't try to force a prompt into a tool."
  +:+ nl +:+ nl +:+ "    User request: " +:+ user_message
  +:+ nl +:+ "    ".

(** [str(d)] for a dictionary of strings. *)
Definition str_of_dict (env : Env) (d : list (string * string)) : string :=
  "{" +:+ PyStr.join ", " (map (fun kv => repr env (fst kv) +:+ ": " +:+ repr env (snd kv)) d)
  +:+ "}".

(** The two f-strings of [generate_user_response]. *)
Definition response_prompt (env : Env) (user_message : string)
    (tool_result : option (list (string * string))) : string :=
  match tool_result with
  | None =>
      "Given the original user request, generate a clear, concise and helpful response."
      +:+ nl +:+ "        Original user request: " +:+ user_message
  | Some d =>
      "Given the original user request and the results of executing the plan, generate a clear, concise and helpful response."
      +:+ nl +:+ "        "
      +:+ nl +:+ "        Original user request: " +:+ user_message
      +:+ nl +:+ "        "
      +:+ nl +:+ "        Tool execution results: " +:+ str_of_dict env d
      +:+ nl +:+ "        "
      +:+ nl +:+ "        Generate a natural, conversational response"
  end.

Definition messages_url : string := "https://api.anthropic.com/v1/messages".

Definition api_headers (env : Env) : list (string * option string) :=
  [("x-api-key", getenv env "ANTHROPIC_API_KEY");
   ("anthropic-version", Some "2023-06-01");
   ("content-type", Some "application/json")].

Definition user_messages (prompt : string) : Json :=
  JArr [JObj [("role", JStr "user"); ("content", JStr prompt)]].

(** The request [generate_plan] posts; the client is built with
    [timeout=35.0]. *)
Definition plan_request (env : Env) (user_message : string) (tools : list Json) : Request :=
  {| url := messages_url;
     headers := api_headers env;
     timeout := 35;
     json_body :=
       JObj [("model", opt_str (getenv env "MODEL"));
             ("max_tokens", JInt 1000);
             ("messages", user_messages (plan_prompt user_message));
             ("tools", JArr tools);
             ("tool_choice", JObj [("type", JStr "any")])] |}.

(** The request [generate_user_response] posts. *)
Definition response_request (env : Env) (user_message : string)
    (tool_result : option (list (string * string))) : Request :=
  {| url := messages_url;
     headers := api_headers env;
     timeout := 35;
     json_body :=
       JObj [("model", opt_str (getenv env "MODEL"));
             ("max_tokens", JInt 1000);
             ("messages", user_messages (response_prompt env user_message tool_result))] |}.

(** [client.post(...)], then [response.raise_for_status()] and
    [response.json()]. *)
Definition post_json (req : Request) : M Json :=
  response ← call (EvHttpPost req) (fun env h => http_post env h req);
  lift (raise_for_status response);;
  lift (json response).

(** The loop of [generate_plan] over the content blocks: the first item
    whose ["type"] is ["tool_use"], [None] when the loop runs out. *)
Fixpoint first_tool_use (items : list Json) : Res Json :=
  match items with
  | [] => Return JNull
  | item :: rest =>
      match py_get item "type" JNull with
      | Raise e => Raise e
      | Return t => if py_eq_str t "tool_use" then Return item else first_tool_use rest
      end
  end.

(** What [generate_plan] makes of the decoded reply:
    [for item in result.get("content", []): ...], then [plan = tool_use]. *)
Definition select_tool_use (result : Json) : Res Json :=
  match py_get result "content" (JArr []) with
  | Raise e => Raise e
  | Return content =>
      match py_iter content with
      | Raise e => Raise e
      | Return items => first_tool_use items
      end
  end.

(** [generate_plan]: the [except] clause only prints, so the function
    then falls off its end and returns [None]. *)
Definition generate_plan (user_message : string) : M Json :=
  try_except
    (tools ← get_mcp_tools;
     env ← ask;
     result ← post_json (plan_request env user_message tools);
     lift (select_tool_use result))
    (fun _ => mret JNull).

(** [result["content"][0]["text"]] *)
Definition reply_text (result : Json) : Res Json :=
  match py_getitem result "content" with
  | Raise e => Raise e
  | Return content =>
      match py_getitem0 content with
      | Raise e => Raise e
      | Return first => py_getitem first "text"
      end
  end.

(** [generate_user_response]; its [except] clause only prints too. *)
Definition generate_user_response (user_message : string)
    (tool_result : option (list (string * string))) : M Json :=
  try_except
    (env ← ask;
     result ← post_json (response_request env user_message tool_result);
     lift (reply_text result))
    (fun _ => mret JNull).

(** ** [mcp_api.py]: the endpoints *)

Record ChatResponse : Type := { response : string }.

(** The error pydantic raises for a field of the wrong type.  Its text
    is pydantic's own and changes with the installed version, so it is
    taken from the environment: [validation_error env v] is [str(e)] for
    the error raised by [ChatResponse(response=v)]. *)
Definition ValidationError (env : Env) (v : Json) : PyExc :=
  Exc "ValidationError" (validation_error env v).

(** [ChatResponse(response=v)]: the model declares [response: str], and
    anything but a string, [None] included, is refused. *)
Definition ChatResponse_new (env : Env) (v : Json) : Res ChatResponse :=
  match v with
  | JStr s => Return {| response := s |}
  | _ => Raise (ValidationError env v)
  end.

(** [block.text] *)
Definition text_of (block : ContentBlock) : Res string :=
  match block with
  | TextContent t => Return t
  | ImageContent _ _ => Raise (AttributeError "'ImageContent' object has no attribute 'text'")
  | AudioContent _ _ => Raise (AttributeError "'AudioContent' object has no attribute 'text'")
  | EmbeddedResource _ => Raise (AttributeError "'EmbeddedResource' object has no attribute 'text'")
  end.

(** [content[0]] *)
Definition first_block (blocks : list ContentBlock) : Res ContentBlock :=
  match blocks with
  | b :: _ => Return b
  | [] => Raise (IndexError "list index out of range")
  end.

(** [result.content[0].text] *)
Definition first_text (result : CallToolResult) : Res string :=
  match first_block (content result) with
  | Return block => text_of block
  | Raise e => Raise e
  end.

(** [mcp_client.session.call_tool] *)
Definition session_attr_call_tool : M ClientSession :=
  w ← get;
  match session (client w) with
  | Some s => mret s
  | None => mthrow (AttributeError "'NoneType' object has no attribute 'call_tool'")
  end.

(** The [chat] endpoint. *)
Definition chat (message : string) : M ChatResponse :=
  try_except
    (plan ← generate_plan message;
     tool ← lift (py_getitem plan "name");
     if py_eq_str tool "none" then
       user_response ← generate_user_response message None;
       env ← ask;
       lift (ChatResponse_new env user_response)
     else
       session_attr_call_tool;;
       tool ← lift (py_getitem plan "name");
       arguments ← lift (py_getitem plan "input");
       result ← call (EvCallTool tool arguments)
                  (fun env h => session_call_tool env h tool arguments);
       t ← lift (first_text result);
       let tool_result := [("result", t)] in
       user_response ← generate_user_response message (Some tool_result);
       env ← ask;
       lift (ChatResponse_new env user_response))
    (fun e => mthrow (HTTPException 500 (exc_str e))).

(** The [list_tools] endpoint, [GET /tools]. *)
Definition list_tools : M Json :=
  try_except
    (tools ← get_mcp_tools;
     mret (JObj [("tools", JArr tools)]))
    (fun e => mthrow (HTTPException 500 (exc_str e))).

(** ** [email_service.py] *)

Module EmailService.

(** What [send_email] puts into the [EmailMessage]: the content, the
    [to] and [subject] headers, and the [cc] and [bcc] headers where it
    sets them. *)
Record EmailMessage : Type := {
  msg_content : string;
  msg_to : string;
  msg_subject : string;
  msg_cc : option string;
  msg_bcc : option string
}.

(** What the email service takes from Python's libraries.  [lower],
    [strip] and [repr] are [str.lower], [str.strip] and [repr] on
    strings, which follow the Unicode character database.  [encode] is the work of the [email] and
    [base64] packages on the message: [set_content], the header
    assignments, [as_bytes()] and [urlsafe_b64encode(...).decode()].  It
    gives the text that is submitted, or raises where the package
    refuses the message: a header value with a line break inside gets a
    [ValueError]. *)
Record Library : Type := {
  lower : string -> string;
  strip : string -> string;
  repr : string -> string;
  encode : EmailMessage -> Res string
}.

(** The service object: the directory loaded from the contacts file
    and the Gmail API, which answers a submitted encoded message with
    the sent message's dictionary or raises. *)
Record t : Type := {
  contacts : gmap string string;
  service : string -> Res (list (string * string))
}.

(** The dictionary [send_email] returns. *)
Inductive SendResult : Type :=
| Success (message_id thread_id : string)
| Error (error : string).

(** The [KeyError] of a name that is not in the directory; its text
    is [repr(key)]. *)
Definition KeyError_for (lib : Library) (key : string) : PyExc :=
  Exc "KeyError" (repr lib key).

(** [self.contacts[key]] *)
Definition contacts_getitem (lib : Library) (self : t) (key : string) : Res string :=
  match contacts self !! key with
  | Some address => Return address
  | None => Raise (KeyError_for lib key)
  end.

(** [get_contact_email] *)
Definition get_contact_email (lib : Library) (self : t) (input : string) : Res string :=
  contacts_getitem lib self (lower lib input).

(** The [for] loop of [get_list_emails]. *)
Fixpoint lookup_each (lib : Library) (self : t) (input : list string)
    (output : list string) : Res (list string) :=
  match input with
  | [] => Return output
  | email :: rest =>
      match contacts_getitem lib self email with
      | Return address => lookup_each lib self rest (output ++ [address])
      | Raise e => Raise e
      end
  end.

(** [if x:] for an optional list. *)
Definition truthy (x : option (list string)) : bool :=
  match x with
  | None | Some [] => false
  | Some (_ :: _) => true
  end.

(** [get_list_emails] *)
Definition get_list_emails (lib : Library) (self : t) (input : option (list string))
  : Res (option (list string)) :=
  match input with
  | None | Some [] => Return None
  | Some l =>
      match lookup_each lib self l [] with
      | Return output => Return (Some output)
      | Raise e => Raise e
      end
  end.

Definition joined (given : option (list string)) (emails : option (list string))
  : option string :=
  if truthy given
  then Some (PyStr.join ", " (match emails with Some l => l | None => [] end))
  else None.

Fixpoint dict_get (key : string) (d : list (string * string)) : Res string :=
  match d with
  | [] => Raise (KeyError key)
  | (k, v) :: rest => if String.eqb k key then Return v else dict_get key rest
  end.

(** The body of the [try] of [send_email], with the encoded messages
    handed to [service.users().messages().send(...).execute()].  The
    three look-ups come first; the message is then built and encoded,
    and submitted only when that has succeeded. *)
Definition send_email_body (lib : Library) (self : t) (to subject body : string)
    (cc bcc : option (list string)) : Res SendResult * list string :=
  match get_contact_email lib self to with
  | Raise e => (Raise e, [])
  | Return contact_email =>
  match get_list_emails lib self bcc with
  | Raise e => (Raise e, [])
  | Return bcc_emails =>
  match get_list_emails lib self cc with
  | Raise e => (Raise e, [])
  | Return cc_emails =>
      let message :=
        {| msg_content := body;
           msg_to := contact_email;
           msg_subject := strip lib subject;
           msg_cc := joined cc cc_emails;
           msg_bcc := joined bcc bcc_emails |} in
      match encode lib message with
      | Raise e => (Raise e, [])
      | Return encoded_message =>
          match service self encoded_message with
          | Raise e => (Raise e, [encoded_message])
          | Return sent_message =>
              match dict_get "id" sent_message with
              | Raise e => (Raise e, [encoded_message])
              | Return message_id =>
                  match dict_get "threadId" sent_message with
                  | Raise e => (Raise e, [encoded_message])
                  | Return thread_id =>
                      (Return (Success message_id thread_id), [encoded_message])
                  end
              end
          end
      end
  end end end.

(** The classes of [googleapiclient.errors] that an [except HttpError]
    clause catches: [HttpError] and the two derived from it. *)
Definition HttpError_classes : list string :=
  ["HttpError"; "ResumableUploadError"; "BatchError"].

(** [isinstance(e, HttpError)] *)
Definition is_HttpError (e : PyExc) : bool :=
  match e with
  | Exc cls _ => existsb (String.eqb cls) HttpError_classes
  | BaseExc _ _ | HTTPException _ _ => false
  end.

(** [except HttpError as error: return {"status": "error", "error": str(error)}] *)
Definition except_HttpError (e : PyExc) : Res SendResult :=
  if is_HttpError e then Return (Error (exc_str e)) else Raise e.

(** [send_email]: only [HttpError] is handled. *)
Definition send_email (lib : Library) (self : t) (to subject body : string)
    (cc bcc : option (list string)) : Res SendResult * list string :=
  match send_email_body lib self to subject body cc bcc with
  | (Raise e, sent) => (except_HttpError e, sent)
  | ok => ok
  end.

End EmailService.

(** ** [email_service.py]: construction and authentication *)

Module EmailServiceInit.

(** [google.oauth2.credentials.Credentials], by what [_authenticate]
    reads of it. *)
Record Credentials : Type := {
  valid : bool;
  expired : bool;
  refresh_token : option string;
  to_json : string
}.

(** The calls [__init__] and [_authenticate] make to the outside. *)
Inductive AuthEvent : Type :=
| EvOpenContacts (path : option string)     (* open(os.getenv("CONTACTS_PATH"), "r"), json.load *)
| EvTokenExists (path : string)             (* os.path.exists(token_path) *)
| EvLoadToken (path : string)               (* Credentials.from_authorized_user_file *)
| EvRefresh (creds : Credentials)           (* creds.refresh(Request()) *)
| EvClientSecrets (path : option string)    (* InstalledAppFlow.from_client_secrets_file *)
| EvRunLocalServer                          (* flow.run_local_server(port=0) *)
| EvWriteToken (path content : string)      (* open(token_path, "w"), token.write(...) *)
| EvBuild (creds : Credentials).            (* build("gmail", "v1", credentials=creds) *)

Definition Service : Type := string -> Res (list (string * string)).

(** The file system and the Google libraries. *)
Record AuthEnv : Type := {
  contacts_path : option string;
  load_contacts : option string -> Res (gmap string string);
  token_exists : string -> bool;
  from_authorized_user_file : string -> Res Credentials;
  refresh : Credentials -> Res Credentials;
  from_client_secrets_file : option string -> Res unit;
  run_local_server : Res Credentials;
  write_token : string -> string -> Res unit;
  build : Credentials -> Res Service
}.

(** One call to the outside followed by the rest of the function: the
    call is logged, and its exception ends the function. *)
Definition and_then {X Y} (ev : AuthEvent) (r : Res X)
    (rest : X -> Res Y * list AuthEvent) : Res Y * list AuthEvent :=
  match r with
  | Raise e => (Raise e, [ev])
  | Return x => (fst (rest x), ev :: snd (rest x))
  end.

(** [if s:] for an optional string. *)
Definition nonempty (s : option string) : bool :=
  match s with
  | None | Some EmptyString => false
  | Some (String _ _) => true
  end.

(** [self.service = build("gmail", "v1", credentials=creds)] *)
Definition build_service (env : AuthEnv) (creds : Credentials)
  : Res Service * list AuthEvent :=
  and_then (EvBuild creds) (build env creds) (fun service => (Return service, [])).

(** [with open(self.token_path, "w") as token: token.write(creds.to_json())],
    then the [build]. *)
Definition save_token (env : AuthEnv) (token_path : string) (creds : Credentials)
  : Res Service * list AuthEvent :=
  and_then (EvWriteToken token_path (to_json creds))
    (write_token env token_path (to_json creds))
    (fun _ => build_service env creds).

(** The [else] branch: the installed-application flow. *)
Definition run_flow (env : AuthEnv) (credentials_path : option string) (token_path : string)
  : Res Service * list AuthEvent :=
  and_then (EvClientSecrets credentials_path) (from_client_secrets_file env credentials_path)
    (fun _ => and_then EvRunLocalServer (run_local_server env) (save_token env token_path)).

(** The body of [if not creds or not creds.valid:]. *)
Definition renew (env : AuthEnv) (credentials_path : option string) (token_path : string)
    (creds : option Credentials) : Res Service * list AuthEvent :=
  match creds with
  | Some c =>
      if expired c && nonempty (refresh_token c)
      then and_then (EvRefresh c) (refresh env c) (save_token env token_path)
      else run_flow env credentials_path token_path
  | None => run_flow env credentials_path token_path
  end.

(** [_authenticate] from the point where [creds] is known. *)
Definition with_creds (env : AuthEnv) (credentials_path : option string) (token_path : string)
    (creds : option Credentials) : Res Service * list AuthEvent :=
  match creds with
  | Some c => if valid c then build_service env c
              else renew env credentials_path token_path creds
  | None => renew env credentials_path token_path creds
  end.

(** [EmailService._authenticate] *)
Definition _authenticate (env : AuthEnv) (credentials_path : option string)
    (token_path : string) : Res Service * list AuthEvent :=
  and_then (EvTokenExists token_path) (Return (token_exists env token_path))
    (fun there =>
       if there
       then and_then (EvLoadToken token_path) (from_authorized_user_file env token_path)
              (fun c => with_creds env credentials_path token_path (Some c))
       else with_creds env credentials_path token_path None).

(** [EmailService.__init__]: the directory is read before anything is
    authenticated. *)
Definition __init__ (env : AuthEnv) (credentials_path : option string)
    (token_path : string) : Res EmailService.t * list AuthEvent :=
  and_then (EvOpenContacts (contacts_path env)) (load_contacts env (contacts_path env))
    (fun contacts =>
       match _authenticate env credentials_path token_path with
       | (Return service, evs) =>
           (Return {| EmailService.contacts := contacts; EmailService.service := service |},
            evs)
       | (Raise e, evs) => (Raise e, evs)
       end).

End EmailServiceInit.

(** ** Concrete environments

    A family of environments to run the model on: the server script is
    there or not, and the completion service and the tool answer as
    scripted.  The planning request is the one that carries a ["tools"]
    field. *)

Module Scenario.

Definition send_email_tool : Tool :=
  {| name := "send_email";
     description := Some "Send an email to a contact";
     inputSchema := JObj [("type", JStr "object")] |}.

Definition list_contacts_tool : Tool :=
  {| name := "list_contacts"; description := None; inputSchema := JObj [] |}.

Definition is_plan_request (req : Request) : bool :=
  match json_body req with
  | JObj fields => match assoc "tools" fields with Some _ => true | None => false end
  | _ => false
  end.

(** The text of the validation error as pydantic 2.11 words it for
    [None], the only value other than a string that the scenarios hand
    to [ChatResponse]. *)
Definition string_type_error (_ : Json) : string :=
  "1 validation error for ChatResponse" +:+ nl
  +:+ "response" +:+ nl
  +:+ "  Input should be a valid string [type=string_type, input_value=None, input_type=NoneType]"
  +:+ nl
  +:+ "    For further information visit https://errors.pydantic.dev/2.11/v/string_type".

Definition env (script_exists : bool) (plan_reply answer_reply : Res Response)
    (tool_reply : Res CallToolResult) : Env :=
  {| getenv := fun k =>
       if String.eqb k "MODEL" then Some "claude-sonnet"
       else if String.eqb k "ANTHROPIC_API_KEY" then Some "sk-test" else None;
     getcwd := "/srv/backend/mcp_service";
     path_exists := fun _ => script_exists;
     stdio_client_enter := fun _ _ => Return tt;
     client_session_enter := fun _ => Return tt;
     session_initialize := fun _ => Return tt;
     ctx_exit := fun _ _ _ => ExitReturn false;
     session_list_tools := fun _ => Return [send_email_tool; list_contacts_tool];
     session_call_tool := fun _ _ _ => tool_reply;
     http_post := fun _ req => if is_plan_request req then plan_reply else answer_reply;
     validation_error := string_type_error;
     repr := PyStr.repr |}.

Definition ok (body : Json) : Res Response :=
  Return {| raise_for_status := Return tt; json := Return body |}.

Definition reply (blocks : list Json) : Json :=
  JObj [("role", JStr "assistant"); ("content", JArr blocks); ("stop_reason", JStr "end_turn")].

Definition tool_use (tool : string) (input : Json) : Json :=
  JObj [("type", JStr "tool_use"); ("id", JStr "toolu_01"); ("name", JStr tool); ("input", input)].

Definition text (t : string) : Json := JObj [("type", JStr "text"); ("text", JStr t)].

Definition email_input : Json :=
  JObj [("to", JStr "alice"); ("subject", JStr "Report"); ("body", JStr "The report is ready")].

Definition tool_text (t : string) : Res CallToolResult :=
  Return {| content := [TextContent t]; isError := false |}.

Definition timed_out : PyExc := Exc "ReadTimeout" "The read operation timed out".

(** The world once the service has started. *)
Definition connected (e : Env) : World :=
  snd (connect_to_server "mcp_server.py" e initial_world).

Definition answer (t : string) : Res Response := ok (reply [text t]).

(** No tool applies: the service selects ["none"]. *)
Definition weather : Env :=
  env true (ok (reply [tool_use "none" (JObj [])])) (answer "It is sunny.") (tool_text "unused").

(** The service selects [send_email] and the tool reports success. *)
Definition email : Env :=
  env true (ok (reply [tool_use "send_email" email_input]))
    (answer "Your email to Alice is on its way.") (tool_text "{'status': 'success'}").

(** [send_email] for a recipient the directory does not know. *)
Definition bob_input : Json :=
  JObj [("to", JStr "bob"); ("subject", JStr "Report"); ("body", JStr "The report is ready")].

(** The failure of the tool function as the session hands it back: an
    error result that carries the text of the exception. *)
Definition tool_error (t : string) : Res CallToolResult :=
  Return {| content := [TextContent t]; isError := true |}.

(** The service selects [send_email] for a recipient that is not in
    the directory, and the tool's [KeyError] comes back as an error
    result. *)
Definition unknown_recipient : Env :=
  env true (ok (reply [tool_use "send_email" bob_input]))
    (answer "I could not find Bob among your contacts.")
    (tool_error "Error executing tool send_email: 'bob'").

(** The tool call fails with an exception on the client side. *)
Definition tool_raises : Env :=
  env true (ok (reply [tool_use "send_email" email_input]))
    (answer "Sorry, that did not work.") (Raise (Exc "McpError" "Connection closed")).


(** The completion service answers the planning request with text only. *)
Definition text_only_plan : Env :=
  env true (answer "I cannot help with that.") (answer "unused") (tool_text "unused").

(** The completion service times out on the planning request. *)
Definition plan_timeout : Env :=
  env true (Raise timed_out) (answer "unused") (tool_text "unused").

(** The server script is not there. *)
Definition missing_script : Env :=
  env false (Raise timed_out) (Raise timed_out) (Raise timed_out).

(** The planning reply holds a text block, then two tool-use blocks. *)
Definition chatty_plan : Env :=
  env true
    (ok (reply [text "I will send it."; tool_use "send_email" email_input;
                tool_use "none" (JObj [])]))
    (answer "Done.") (tool_text "ok").

(** The planning reply holds a bare string before its tool-use block. *)
Definition malformed_plan : Env :=
  env true (ok (reply [JStr "tool_use"; tool_use "send_email" email_input]))
    (answer "Done.") (tool_text "ok").

(** The session cannot list its tools. *)
Definition listing_fails : Env :=
  {| getenv := getenv email;
     getcwd := getcwd email;
     path_exists := path_exists email;
     stdio_client_enter := stdio_client_enter email;
     client_session_enter := client_session_enter email;
     session_initialize := session_initialize email;
     ctx_exit := ctx_exit email;
     session_list_tools := fun _ => Raise (Exc "McpError" "Connection closed");
     session_call_tool := session_call_tool email;
     http_post := http_post email;
     validation_error := validation_error email;
     repr := repr email |}.

(** The tool succeeds, then the completion service times out on the
    response request. *)
Definition answer_timeout : Env :=
  env true (ok (reply [tool_use "send_email" email_input])) (Raise timed_out)
    (tool_text "{'status': 'success'}").

(** The planning reply is a tool-use block without ["input"]. *)
Definition plan_without_input : Env :=
  env true (ok (reply [JObj [("type", JStr "tool_use"); ("name", JStr "send_email")]]))
    (answer "Done.") (tool_text "ok").

(** The server starts but the protocol handshake fails. *)
Definition handshake_fails : Env :=
  {| getenv := getenv email;
     getcwd := getcwd email;
     path_exists := path_exists email;
     stdio_client_enter := stdio_client_enter email;
     client_session_enter := client_session_enter email;
     session_initialize := fun _ => Raise (Exc "McpError" "Connection closed");
     ctx_exit := ctx_exit email;
     session_list_tools := session_list_tools email;
     session_call_tool := session_call_tool email;
     http_post := http_post email;
     validation_error := validation_error email;
     repr := repr email |}.

End Scenario.

(** ** Vocabulary of the statements *)

(** The subprocesses left after the callbacks [cbs] have run. *)
Definition release_all (cbs : list Ctx) (ps : list Process) : list Process :=
  fold_left (fun ps c => release_process c ps) cbs ps.

(** Every live subprocess has its exit callback on the client's stack. *)
Definition managed (w : World) : Prop :=
  forall p, In p (running w) ->
    exists q, In (StdioClient q) (exit_stack (client w)) /\ pid q = pid p.

(** [m] changes neither the client object nor the set of live
    subprocesses, and every call it makes to the outside satisfies [P]. *)
Definition respects (P : Event -> Prop) {A} (m : M A) : Prop :=
  forall env w,
    client (snd (m env w)) = client w
    /\ running (snd (m env w)) = running w
    /\ exists evs, trace (snd (m env w)) = trace w ++ evs /\ Forall P evs.

(** What happens at the [yield] of [lifespan] must not touch the session
    it does not own. *)
Definition frame (serving : M unit) : Prop :=
  forall env w,
    client (snd (serving env w)) = client w /\ running (snd (serving env w)) = running w.

(** A call the request pipeline may make: to the session, or to the
    completion service with the 35-second timeout. *)
Definition pipeline_call (ev : Event) : Prop :=
  match ev with
  | EvListTools | EvCallTool _ _ => True
  | EvHttpPost req => timeout req = 35
  | _ => False
  end.

(** [n] further calls of [cleanup]. *)
Definition repeat_cleanup (env : Env) (n : nat) (w : World) : World :=
  Nat.iter n (fun w => snd (cleanup env w)) w.

(** [r] is a failure whose exception class is named [cls]. *)
Definition fails_with (cls : string) {A} (r : Res A) : bool :=
  match r with
  | Raise e => String.eqb (exc_class e) cls
  | Return _ => false
  end.

Definition is_spawn (ev : Event) : bool :=
  match ev with EvSpawn _ => true | _ => false end.

(** What the [except Exception] clause of an endpoint makes of an
    outcome. *)
Definition at_boundary {A} (r : Res A) : Res A :=
  match r with
  | Raise e => if is_Exception e then Raise (HTTPException 500 (exc_str e)) else Raise e
  | ok => ok
  end.

(** The reply [chat] builds from what [generate_user_response] gave. *)
Definition reply_of (env : Env) (user_response : Res Json) : Res ChatResponse :=
  at_boundary
    (match user_response with
     | Return v => ChatResponse_new env v
     | Raise e => Raise e
     end).

Definition not_subscriptable : string := "'NoneType' object is not subscriptable".

Definition is_tool_use (block : Json) : bool :=
  match block with
  | JObj fields =>
      match assoc "type" fields with
      | Some t => py_eq_str t "tool_use"
      | None => false
      end
  | _ => false
  end.

(** The tool-use content blocks of a reply of the completion service. *)
Definition tool_use_blocks (body : Json) : list Json :=
  match body with
  | JObj fields =>
      match assoc "content" fields with
      | Some (JArr blocks) => List.filter is_tool_use blocks
      | _ => []
      end
  | _ => []
  end.

(** An outcome that [generate_plan] turns into [None]. *)
Definition no_plan (r : Res Json) : Prop :=
  r = Return JNull \/ exists e, r = Raise e /\ is_Exception e = true.

Definition is_call_tool (ev : Event) : bool :=
  match ev with EvCallTool _ _ => true | _ => false end.


(** The directory is keyed by lower-case names: [str.lower] leaves
    every key as it is. *)
Definition lowercase_keys (lib : EmailService.Library) (self : EmailService.t) : Prop :=
  forall key, is_Some (EmailService.contacts self !! key) -> EmailService.lower lib key = key.

(** The server side of a tool call is not part of these sources.
    [reported outcome answer] says that the session's answer to the call
    carries the outcome of the tool function as the MCP protocol hands
    it to the client: an exception raised by the function does not make
    [call_tool] raise, it comes back as a result that is marked
    [isError] and whose first block is a text. *)
Definition reported {A} (outcome : Res A) (answer : Res CallToolResult) : Prop :=
  match outcome with
  | Return _ => exists result, answer = Return result /\ isError result = false
  | Raise _ =>
      exists result t rest,
        answer = Return result /\ isError result = true
        /\ content result = TextContent t :: rest
  end.

(** [cc] or [bcc] names [n]. *)
Definition copies (n : string) (cc bcc : option (list string)) : Prop :=
  match cc with Some l => In n l | None => False end
  \/ match bcc with Some l => In n l | None => False end.

(** An outcome that no [except Exception] clause would catch: a normal
    return, or an exception outside [Exception]. *)
Definition escapes_no_Exception {A} (r : Res A) : Prop :=
  match r with
  | Return _ => True
  | Raise e => is_Exception e = false
  end.

(** An outcome of an endpoint: a reply, an HTTP 500 error, or an exception
    outside [Exception]. *)
Definition endpoint_outcome {A} (r : Res A) : Prop :=
  match r with
  | Return _ => True
  | Raise (HTTPException code _) => code = 500
  | Raise e => is_Exception e = false
  end.

(** The sequences of calls one [chat] request can make. *)
Inductive chat_calls (env : Env) (message : string) : list Event -> Prop :=
| calls_none : chat_calls env message []
| calls_listing : chat_calls env message [EvListTools]
| calls_plan tools :
    chat_calls env message [EvListTools; EvHttpPost (plan_request env message tools)]
| calls_direct tools :
    chat_calls env message
      [EvListTools; EvHttpPost (plan_request env message tools);
       EvHttpPost (response_request env message None)]
| calls_tool tools tool arguments :
    chat_calls env message
      [EvListTools; EvHttpPost (plan_request env message tools); EvCallTool tool arguments]
| calls_tool_response tools tool arguments t :
    chat_calls env message
      [EvListTools; EvHttpPost (plan_request env message tools); EvCallTool tool arguments;
       EvHttpPost (response_request env message (Some [("result", t)]))].

(** What [finally] makes of the outcome [r] of the [try] block when the
    clean-up ended with [final]. *)
Definition after_finally {A} (r : Res A) (final : Res unit) : Res A :=
  match final with
  | Return _ => r
  | Raise e => Raise e
  end.

(** Every name of [l] is a key of the directory, [addresses] being the
    addresses found, in the same order. *)
Definition resolved (self : EmailService.t) (l addresses : list string) : Prop :=
  Forall2 (fun email address => EmailService.contacts self !! email = Some address)
    l addresses.

(** The names given for a [cc] or [bcc] argument. *)
Definition given (x : option (list string)) : list string :=
  match x with Some l => l | None => [] end.

(** The header written for a list of addresses: none for an empty list. *)
Definition header (addresses : list string) : option string :=
  match addresses with
  | [] => None
  | _ :: _ => Some (PyStr.join ", " addresses)
  end.

Module Directory.

Definition line_break (s : string) : bool :=
  PyStr.contains (ascii_of_nat 10) s || PyStr.contains (ascii_of_nat 13) s.

Definition header_line (name : string) (value : option string) : string :=
  match value with
  | Some v => name +:+ ": " +:+ v +:+ nl
  | None => EmptyString
  end.

(** The libraries on ASCII text, for the examples.  The encoder refuses
    a header value that holds a line feed or a carriage return, as the
    [email] package does; for any other message the headers and the
    content in plain text stand for the base64 text, which the Gmail
    side below does not read. *)
Definition ascii : EmailService.Library :=
  {| EmailService.lower := PyStr.lower;
     EmailService.strip := PyStr.strip;
     EmailService.repr := PyStr.repr;
     EmailService.encode := fun message =>
       if line_break (EmailService.msg_to message)
          || line_break (EmailService.msg_subject message)
          || line_break (default EmptyString (EmailService.msg_cc message))
          || line_break (default EmptyString (EmailService.msg_bcc message))
       then Raise (Exc "ValueError"
                     "Header values may not contain linefeed or carriage return characters")
       else Return (header_line "to" (Some (EmailService.msg_to message))
                    +:+ header_line "subject" (Some (EmailService.msg_subject message))
                    +:+ header_line "cc" (EmailService.msg_cc message)
                    +:+ header_line "bcc" (EmailService.msg_bcc message)
                    +:+ nl +:+ EmailService.msg_content message) |}.

(** A Gmail side that accepts every message. *)
Definition accepting (_ : string) : Res (list (string * string)) :=
  Return [("id", "18c2f0"); ("threadId", "18c2f0"); ("labelIds", "SENT")].

(** A directory keyed by lower-case names. *)
Definition lowercase : EmailService.t :=
  {| EmailService.contacts :=
       <["alice" := "alice@example.com"]> (<["carol" := "carol@example.com"]> ∅);
     EmailService.service := accepting |}.

(** A directory with a capitalised key. *)
Definition capitalised : EmailService.t :=
  {| EmailService.contacts := <["Alice" := "alice@example.com"]> ∅;
     EmailService.service := accepting |}.

End Directory.

Definition is_build (ev : EmailServiceInit.AuthEvent) : bool :=
  match ev with EmailServiceInit.EvBuild _ => true | _ => false end.

Definition is_write (ev : EmailServiceInit.AuthEvent) : bool :=
  match ev with EmailServiceInit.EvWriteToken _ _ => true | _ => false end.

Definition is_flow (ev : EmailServiceInit.AuthEvent) : bool :=
  match ev with
  | EmailServiceInit.EvClientSecrets _ | EmailServiceInit.EvRunLocalServer => true
  | _ => false
  end.

Definition is_refresh (ev : EmailServiceInit.AuthEvent) : bool :=
  match ev with EmailServiceInit.EvRefresh _ => true | _ => false end.

Module Tokens.

Definition stale : EmailServiceInit.Credentials :=
  {| EmailServiceInit.valid := false;
     EmailServiceInit.expired := true;
     EmailServiceInit.refresh_token := Some "1//0gRefresh";
     EmailServiceInit.to_json := "{'token': 'ya29.old'}" |}.

Definition fresh : EmailServiceInit.Credentials :=
  {| EmailServiceInit.valid := true;
     EmailServiceInit.expired := false;
     EmailServiceInit.refresh_token := Some "1//0gRefresh";
     EmailServiceInit.to_json := "{'token': 'ya29.new'}" |}.

(** A token file holding expired credentials that [stored] answers for;
    the refresh is answered by [refreshed]. *)
Definition env (stored : Res EmailServiceInit.Credentials)
    (refreshed : Res EmailServiceInit.Credentials) : EmailServiceInit.AuthEnv :=
  {| EmailServiceInit.contacts_path := Some "contacts.json";
     EmailServiceInit.load_contacts := fun _ => Return (EmailService.contacts Directory.lowercase);
     EmailServiceInit.token_exists := fun _ => true;
     EmailServiceInit.from_authorized_user_file := fun _ => stored;
     EmailServiceInit.refresh := fun _ => refreshed;
     EmailServiceInit.from_client_secrets_file := fun _ => Return tt;
     EmailServiceInit.run_local_server := Return fresh;
     EmailServiceInit.write_token := fun _ _ => Return tt;
     EmailServiceInit.build := fun _ => Return Directory.accepting |}.

End Tokens.

(** * Properties *)

Ltac unfold_monad :=
  unfold mbind, M_bind, mret, M_ret, mthrow, M_throw, call, modify, get, ask, lift,
    try_except, try_finally in *.

(** ** Absolute paths *)

Lemma isabs_inv s : OsPath.isabs s = true -> exists s', s = String "/"%char s'.
Proof.
  unfold OsPath.isabs.
  destruct s as [|c s']; cbn [PyStr.startswith]; [discriminate|].
  rewrite andb_true_r. intros ->%Ascii.eqb_eq. eauto.
Qed.

Lemma isabs_normpath s : OsPath.isabs s = true -> OsPath.isabs (OsPath.normpath s) = true.
Proof.
  intros H. destruct (isabs_inv _ H) as [s' ->].
  unfold OsPath.normpath.
  replace (String.eqb (String "/" s') EmptyString) with false by reflexivity.
  cbv zeta.
  assert (Hn : exists t,
    OsPath.slashes (OsPath.initial_slashes (String "/" s')) = String "/"%char t).
  { unfold OsPath.initial_slashes. unfold OsPath.isabs in H. rewrite H.
    destruct (_ && _); simpl; eauto. }
  destruct Hn as [t ->]. reflexivity.
Qed.

Lemma isabs_abspath cwd p :
  OsPath.isabs cwd = true -> OsPath.isabs (OsPath.abspath cwd p) = true.
Proof.
  intros H. unfold OsPath.abspath. apply isabs_normpath.
  destruct (OsPath.isabs p) eqn:Hp; [done|].
  destruct (isabs_inv _ H) as [c ->].
  unfold OsPath.join. unfold OsPath.isabs in Hp. rewrite Hp.
  destruct (_ || _); reflexivity.
Qed.

(** ** The exit stack *)

Lemma run_exit_callbacks_world cbs : forall exc pending env w,
  let w' := snd (run_exit_callbacks cbs exc pending env w) in
  client w' = match cbs with [] => client w | _ => set_exit_stack [] (client w) end
  /\ running w' = release_all cbs (running w)
  /\ trace w' = trace w ++ map EvExit cbs.
Proof.
  induction cbs as [|cb rest IH]; intros exc pending env w.
  - simpl. rewrite app_nil_r. done.
  - cbn [run_exit_callbacks]. unfold_monad. cbn [fst snd].
    set (w1 := release cb _).
    assert (Hw1 : client w1 = set_exit_stack rest (client w)
                  /\ running w1 = release_all [cb] (running w)
                  /\ trace w1 = trace w ++ [EvExit cb]) by done.
    destruct Hw1 as (Hc & Hr & Ht).
    assert (Hgoal : forall exc' pending',
      let w' := snd (run_exit_callbacks rest exc' pending' env w1) in
      client w' = set_exit_stack [] (client w)
      /\ running w' = release_all (cb :: rest) (running w)
      /\ trace w' = trace w ++ map EvExit (cb :: rest)).
    { intros exc' pending'. destruct (IH exc' pending' env w1) as (Ic & Ir & It).
      cbn zeta. rewrite Ic, Ir, It, Hc, Hr, Ht. split; [|split].
      - by destruct rest.
      - done.
      - by rewrite <- app_assoc. }
    destruct (ctx_exit _ _ _ _) as [[|]|e]; apply Hgoal.
Qed.

Lemma set_exit_stack_nil cl :
  match exit_stack cl with [] => cl | _ => set_exit_stack [] cl end = set_exit_stack [] cl.
Proof. destruct cl as [? st ? ?]; simpl. by destruct st. Qed.

Lemma aclose_world env w :
  let w' := snd (aclose env w) in
  client w' = set_exit_stack [] (client w)
  /\ running w' = release_all (exit_stack (client w)) (running w)
  /\ trace w' = trace w ++ EvAclose :: map EvExit (exit_stack (client w)).
Proof.
  unfold aclose. unfold_monad.
  destruct (run_exit_callbacks_world (exit_stack (client w)) None false env (log EvAclose w))
    as (Hc & Hr & Ht).
  cbn [client log] in Hc. rewrite set_exit_stack_nil in Hc.
  cbn [trace log] in Ht. rewrite <- app_assoc in Ht.
  destruct (run_exit_callbacks _ _ _ _ _) as [[[exc pending]|e] w1]; cbn [fst snd] in *.
  - destruct exc as [e|]; [destruct pending|]; done.
  - done.
Qed.

Lemma cleanup_world env w :
  let w' := snd (cleanup env w) in
  client w' = set_exit_stack [] (client w)
  /\ running w' = release_all (exit_stack (client w)) (running w)
  /\ trace w' = trace w ++ EvAclose :: map EvExit (exit_stack (client w)).
Proof.
  pose proof (aclose_world env w) as H. unfold cleanup. unfold_monad.
  destruct (aclose env w) as [[[]|e] w1]; [done|].
  by destruct (is_Exception e).
Qed.

Lemma cleanup_closed env w :
  exit_stack (client w) = [] -> cleanup env w = (Return tt, log EvAclose w).
Proof. intros H. unfold cleanup, aclose. unfold_monad. by rewrite H. Qed.

Lemma release_all_In cbs : forall ps r,
  In r (release_all cbs ps) ->
  In r ps /\ forall q, In (StdioClient q) cbs -> pid q <> pid r.
Proof.
  induction cbs as [|c cbs IH]; intros ps r Hr; simpl in *.
  - split; [done | tauto].
  - apply IH in Hr as [Hr Hq]. destruct c as [p|s]; simpl in Hr.
    + unfold terminate in Hr. apply filter_In in Hr as [Hin Hne].
      apply negb_true_iff, Nat.eqb_neq in Hne.
      split; [done|]. intros q [[= ->]|Hin']; [congruence | by apply Hq].
    + split; [done|]. intros q [[=]|Hin']. by apply Hq.
Qed.

Lemma release_all_managed cbs ps :
  (forall p, In p ps -> exists q, In (StdioClient q) cbs /\ pid q = pid p) ->
  release_all cbs ps = [].
Proof.
  intros H. destruct (release_all cbs ps) as [|r l] eqn:E; [done|].
  assert (Hr : In r (release_all cbs ps)) by (rewrite E; by left).
  apply release_all_In in Hr as [Hin Hne].
  destruct (H r Hin) as (q & Hq & Hpid). by apply Hne in Hq.
Qed.

Lemma cleanup_from_managed env w :
  managed w ->
  let w' := snd (cleanup env w) in
  In EvAclose (trace w') /\ exit_stack (client w') = [] /\ running w' = [].
Proof.
  intros H. destruct (cleanup_world env w) as (Hc & Hr & Ht). cbn zeta.
  rewrite Hc, Hr, Ht. split; [|split].
  - apply in_or_app. right. by left.
  - done.
  - by apply release_all_managed.
Qed.

(** ** Computations that leave the life cycle alone *)

Lemma respects_silent {A} P (m : M A) :
  (forall env w, snd (m env w) = w) -> respects P m.
Proof.
  intros H env w. rewrite H. repeat split. exists []. by rewrite app_nil_r.
Qed.

Lemma respects_ret {A} P (a : A) : respects P (mret a).
Proof. by apply respects_silent. Qed.

Lemma respects_throw {A} P (e : PyExc) : respects P (mthrow e : M A).
Proof. by apply respects_silent. Qed.

Lemma respects_lift {A} P (r : Res A) : respects P (lift r).
Proof. by apply respects_silent. Qed.

Lemma respects_ask P : respects P ask.
Proof. by apply respects_silent. Qed.

Lemma respects_get P : respects P get.
Proof. by apply respects_silent. Qed.

Lemma respects_call {A} (P : Event -> Prop) ev (answer : Env -> list Event -> Res A) :
  P ev -> respects P (call ev answer).
Proof. intros H env w. repeat split. exists [ev]. split; [done | by constructor]. Qed.

Lemma respects_bind {A B} P (m : M A) (f : A -> M B) :
  respects P m -> (forall a, respects P (f a)) -> respects P (m ≫= f).
Proof.
  intros Hm Hf env w. destruct (Hm env w) as (Hc & Hr & evs & Ht & HP).
  unfold_monad. destruct (m env w) as [[a|e] w1]; cbn [snd] in *.
  - destruct (Hf a env w1) as (Hc' & Hr' & evs' & Ht' & HP').
    rewrite Hc', Hr', Ht', Hc, Hr, Ht. repeat split.
    exists (evs ++ evs'). split; [by rewrite app_assoc | by apply Forall_app].
  - repeat split; eauto.
Qed.

Lemma respects_try_except {A} P (body : M A) (handler : PyExc -> M A) :
  respects P body -> (forall e, respects P (handler e)) ->
  respects P (try_except body handler).
Proof.
  intros Hm Hf env w. destruct (Hm env w) as (Hc & Hr & evs & Ht & HP).
  unfold_monad. destruct (body env w) as [[a|e] w1]; cbn [snd] in *.
  - repeat split; eauto.
  - destruct (is_Exception e); [|repeat split; eauto].
    destruct (Hf e env w1) as (Hc' & Hr' & evs' & Ht' & HP').
    rewrite Hc', Hr', Ht', Hc, Hr, Ht. repeat split.
    exists (evs ++ evs'). split; [by rewrite app_assoc | by apply Forall_app].
Qed.

Ltac respects_step :=
  first
    [ apply respects_ret | apply respects_throw | apply respects_lift
    | apply respects_ask | apply respects_get
    | apply respects_call; exact I
    | apply respects_call; reflexivity
    | apply respects_bind; [|intros ?]
    | apply respects_try_except; [|intros ?]
    | match goal with
      | |- respects _ (if ?b then _ else _) => destruct b
      | |- respects _ (match ?x with _ => _ end) => destruct x
      end ].

Lemma get_mcp_tools_respects : respects pipeline_call get_mcp_tools.
Proof.
  intros env w. unfold get_mcp_tools. unfold_monad.
  destruct (session (client w)); cbn [snd].
  - destruct (session_list_tools _ _); repeat split; exists [EvListTools];
      (split; [done | by repeat constructor]).
  - repeat split. exists []. by rewrite app_nil_r.
Qed.

Lemma post_json_respects req : timeout req = 35 -> respects pipeline_call (post_json req).
Proof. intros H. unfold post_json. repeat respects_step. by apply respects_call. Qed.

Lemma generate_plan_respects message : respects pipeline_call (generate_plan message).
Proof.
  unfold generate_plan. apply respects_try_except; [|intros; apply respects_ret].
  apply respects_bind; [apply get_mcp_tools_respects | intros tools].
  apply respects_bind; [apply respects_ask | intros env].
  apply respects_bind; [by apply post_json_respects | intros result].
  repeat respects_step.
Qed.

Lemma generate_user_response_respects message tool_result :
  respects pipeline_call (generate_user_response message tool_result).
Proof.
  unfold generate_user_response. apply respects_try_except; [|intros; apply respects_ret].
  apply respects_bind; [apply respects_ask | intros env].
  apply respects_bind; [by apply post_json_respects | intros result].
  repeat respects_step.
Qed.

Lemma chat_respects message : respects pipeline_call (chat message).
Proof.
  unfold chat. apply respects_try_except; [|intros; apply respects_throw].
  apply respects_bind; [apply generate_plan_respects | intros plan].
  apply respects_bind; [apply respects_lift | intros tool].
  destruct (py_eq_str tool "none").
  - apply respects_bind; [apply generate_user_response_respects | intros].
    apply respects_bind; [apply respects_ask | intros; apply respects_lift].
  - apply respects_bind.
    { unfold session_attr_call_tool. apply respects_bind; [apply respects_get | intros w].
      destruct (session (client w)); [apply respects_ret | apply respects_throw]. }
    intros _.
    apply respects_bind; [apply respects_lift | intros tool'].
    apply respects_bind; [apply respects_lift | intros arguments].
    apply respects_bind; [by apply respects_call | intros result].
    apply respects_bind; [apply respects_lift | intros t].
    apply respects_bind; [apply generate_user_response_respects | intros].
    apply respects_bind; [apply respects_ask | intros; apply respects_lift].
Qed.

Lemma respects_frame (m : M unit) : respects pipeline_call m -> frame m.
Proof. intros H env w. destruct (H env w) as (? & ? & _). done. Qed.

(** ** The tool registry: [get_mcp_tools] *)

Lemma descriptor_fields tool :
  py_getitem (descriptor tool) "name" = Return (JStr (name tool))
  /\ py_getitem (descriptor tool) "description" = Return (opt_str (description tool))
  /\ py_getitem (descriptor tool) "input_schema" = Return (inputSchema tool).
Proof. done. Qed.

Lemma lookup_map_descriptor (tools : list Tool) i :
  map descriptor tools !! i = descriptor <$> tools !! i.
Proof.
  revert i. induction tools as [|t tools IH]; intros [|i]; simpl; done.
Qed.

(** C5.  When the session answers [list_tools] with [tools],
    [get_mcp_tools] returns exactly one descriptor for each entry, at the
    same position: the two lists have the same length and the i-th
    descriptor is the [{name, description, input_schema}] dictionary of the
    i-th tool.  The [GET /tools] endpoint wraps the same list. *)
Theorem get_mcp_tools_preserves_order (env : Env) (w : World) (s : ClientSession)
    (tools : list Tool) :
  session (client w) = Some s ->
  session_list_tools env (trace w) = Return tools ->
  exists descriptors : list Json,
    get_mcp_tools env w = (Return descriptors, log EvListTools w)
    /\ length descriptors = length tools
    /\ (forall i, descriptors !! i = descriptor <$> tools !! i)
    /\ (forall tool, py_getitem (descriptor tool) "name" = Return (JStr (name tool))
          /\ py_getitem (descriptor tool) "description" = Return (opt_str (description tool))
          /\ py_getitem (descriptor tool) "input_schema" = Return (inputSchema tool))
    /\ list_tools env w = (Return (JObj [("tools", JArr descriptors)]), log EvListTools w).
Proof.
  intros Hs Ht. exists (map descriptor tools).
  assert (Hget : get_mcp_tools env w = (Return (map descriptor tools), log EvListTools w)).
  { unfold get_mcp_tools. unfold_monad. by rewrite Hs, Ht. }
  split; [exact Hget|]. split; [apply length_map|].
  split; [apply lookup_map_descriptor|]. split; [apply descriptor_fields|].
  unfold list_tools. unfold_monad. by rewrite Hget.
Qed.

Lemma get_mcp_tools_preserves_order_witness :
  exists descriptors : list Json,
    get_mcp_tools Scenario.email (Scenario.connected Scenario.email)
    = (Return descriptors, log EvListTools (Scenario.connected Scenario.email))
    /\ descriptors !! 1%nat = Some (descriptor Scenario.list_contacts_tool).
Proof.
  destruct (get_mcp_tools_preserves_order
              Scenario.email (Scenario.connected Scenario.email)
              {| read_stream := ReadStream 0; write_stream := WriteStream 0 |}
              [Scenario.send_email_tool; Scenario.list_contacts_tool]
              eq_refl eq_refl) as (ds & Hget & _ & Hnth & _).
  exists ds. split; [exact Hget | apply (Hnth 1%nat)].
Defined.

(** ** Closing the session: [cleanup] *)

(** C6.  Once [cleanup] has run, in whatever state it found the client
    (nothing entered, the transport only, the session entered,
    initialised or not), any number of further calls returns normally and
    changes neither the client object nor the set of live subprocesses:
    each further call only records that [aclose] was called and runs no
    exit callback. *)
Theorem cleanup_idempotent (env : Env) (w : World) (n : nat) :
  let closed := snd (cleanup env w) in
  let again := repeat_cleanup env n closed in
  cleanup env again = (Return tt, log EvAclose again)
  /\ client again = client closed
  /\ running again = running closed
  /\ trace again = trace closed ++ repeat EvAclose n.
Proof.
  cbn zeta. destruct (cleanup_world env w) as (Hc & _ & _).
  assert (Hstack : exit_stack (client (snd (cleanup env w))) = []) by by rewrite Hc.
  induction n as [|n (IH1 & IH2 & IH3 & IH4)].
  - change (repeat_cleanup env 0 (snd (cleanup env w))) with (snd (cleanup env w)).
    cbn [repeat]. rewrite app_nil_r.
    by rewrite (cleanup_closed _ _ Hstack).
  - change (repeat_cleanup env (S n) (snd (cleanup env w)))
      with (snd (cleanup env (repeat_cleanup env n (snd (cleanup env w))))).
    rewrite IH1. cbn [snd].
    assert (Hnext : exit_stack (client (log EvAclose
              (repeat_cleanup env n (snd (cleanup env w))))) = []).
    { cbn [client log]. by rewrite IH2. }
    rewrite (cleanup_closed _ _ Hnext). cbn [client running trace log].
    rewrite IH2, IH3, IH4. repeat split.
    rewrite <- app_assoc. f_equal. by rewrite <- repeat_cons.
Qed.

(** ** The life cycle: [lifespan] and [async_main] *)

Lemma try_finally_world {A} (body : M A) (final : M unit) env w :
  snd (try_finally body final env w) = snd (final env (snd (body env w))).
Proof.
  unfold try_finally. destruct (body env w) as [r w1]. cbn [snd].
  by destruct (final env w1) as [[[]|e] w2].
Qed.

Lemma guarded_cleanup_world env w :
  snd (try_except cleanup (fun _ => mret tt) env w) = snd (cleanup env w).
Proof.
  unfold try_except. destruct (cleanup env w) as [[[]|e] w1]; [done|].
  by destruct (is_Exception e).
Qed.

Lemma managed_initial_world : managed initial_world.
Proof. intros p []. Qed.

Lemma connect_to_server_managed path env w :
  managed w -> managed (snd (connect_to_server path env w)).
Proof.
  intros H. unfold connect_to_server, enter_stdio_client, enter_client_session.
  unfold_monad.
  destruct (negb _); [done|].
  destruct (stdio_client_enter _ _ _) as [[]|e]; [|done].
  cbn.
  set (p := {| pid := length (trace w); params := _ |}).
  assert (Hm : forall extra q, In q (p :: running w) ->
     exists q', In (StdioClient q') (extra ++ StdioClient p :: exit_stack (client w))
                /\ pid q' = pid q).
  { intros extra q [<-|Hin].
    - eexists. split; [apply in_or_app; right; by left | done].
    - destruct (H q Hin) as (q' & Hq & Hp). exists q'. split; [|done].
      apply in_or_app. right. by right. }
  destruct (client_session_enter _ _) as [[]|e]; cbn.
  - intros q Hq; apply (Hm [_] q Hq).
  - intros q Hq; apply (Hm [] q Hq).
Qed.

Lemma frame_managed serving env w : frame serving -> managed w -> managed (snd (serving env w)).
Proof. intros Hf H p. destruct (Hf env w) as [-> ->]. apply H. Qed.

(** C7.  From the start of the process, whatever the environment does
    (the start-up fails at any step or succeeds) and however the serving
    period ends (normally or with an exception), [lifespan] calls
    [cleanup]: the exit stack's [aclose] is called, no exit callback is
    left on the stack and no subprocess launched for the client is left
    alive.  The same holds for [async_main]. *)
Theorem shutdown_always_runs_cleanup (env : Env) (serving : M unit) :
  frame serving ->
  let served := snd (lifespan serving env initial_world) in
  let driven := snd (async_main env initial_world) in
  (In EvAclose (trace served) /\ exit_stack (client served) = [] /\ running served = [])
  /\ (In EvAclose (trace driven) /\ exit_stack (client driven) = [] /\ running driven = []).
Proof.
  intros Hf. cbn zeta. split.
  - unfold lifespan. rewrite try_finally_world, guarded_cleanup_world.
    apply cleanup_from_managed.
    unfold mbind, M_bind.
    pose proof (connect_to_server_managed "mcp_server.py" env _ managed_initial_world) as Hc.
    destruct (connect_to_server "mcp_server.py" env initial_world) as [[[]|e] w1];
      cbn [snd] in *; [by apply frame_managed | done].
  - unfold async_main. unfold mbind, M_bind, modify. rewrite try_finally_world.
    apply cleanup_from_managed.
    pose proof (connect_to_server_managed "mcp_service/mcp_server.py" env
                  (with_client (fun _ => MCPClient_new) initial_world)
                  managed_initial_world) as Hc.
    unfold try_except.
    destruct (connect_to_server _ env _) as [[[]|e] w1]; cbn [snd] in *; [done|].
    by destruct (is_Exception e).
Qed.

Lemma shutdown_always_runs_cleanup_witness :
  frame (chat "Email Alice that the report is ready";; mret tt)
  /\ running (snd (lifespan (chat "Email Alice that the report is ready";; mret tt)
                     Scenario.email initial_world)) = []
  /\ running (snd (async_main Scenario.missing_script initial_world)) = [].
Proof.
  split.
  - apply respects_frame. apply respects_bind; [apply chat_respects | intros; apply respects_ret].
  - destruct (shutdown_always_runs_cleanup Scenario.email
                (chat "Email Alice that the report is ready";; mret tt)) as [(_ & _ & H1) _].
    { apply respects_frame.
      apply respects_bind; [apply chat_respects | intros; apply respects_ret]. }
    destruct (shutdown_always_runs_cleanup Scenario.missing_script (mret tt))
      as [_ (_ & _ & H2)].
    { by apply respects_frame, respects_ret. }
    exact (conj H1 H2).
Defined.

(** ** Launching the server: [connect_to_server] *)

Lemma connect_to_server_launch env w path :
  path_exists env (OsPath.abspath (getcwd env) path) = true ->
  exists evs,
    trace (snd (connect_to_server path env w))
    = trace w
      ++ EvSpawn {| command := "python"; args := [OsPath.abspath (getcwd env) path] |} :: evs
    /\ forallb (fun ev => negb (is_spawn ev)) evs = true.
Proof.
  intros He. unfold connect_to_server, enter_stdio_client, enter_client_session.
  unfold_monad. rewrite He. cbn [negb].
  destruct (stdio_client_enter _ _ _) as [[]|e]; cbn.
  - destruct (client_session_enter _ _) as [[]|e]; cbn.
    + exists [EvSessionEnter; EvInitialize]. by rewrite <- !app_assoc.
    + exists [EvSessionEnter]. by rewrite <- !app_assoc.
  - by exists [].
Qed.

(** C8 (amended).  [connect_to_server] turns the script path into an
    absolute one before anything is launched: the only launch it ever
    requests is [python] on that absolute path.  When no file is there it
    raises [FileNotFoundError] (the code has no [ProcessLaunchError]
    class) without any call to the SDK and without changing the state, so
    no subprocess exists; [lifespan] then runs [cleanup] and fails with
    the same exception without reaching its [yield], so the service never
    starts serving. *)
Theorem connect_to_server_missing_script (env : Env) (w : World) (path : string) :
  OsPath.isabs (getcwd env) = true ->
  let server_path := OsPath.abspath (getcwd env) path in
  OsPath.isabs server_path = true
  /\ (path_exists env server_path = true ->
      exists evs,
        trace (snd (connect_to_server path env w))
        = trace w ++ EvSpawn {| command := "python"; args := [server_path] |} :: evs
        /\ forallb (fun ev => negb (is_spawn ev)) evs = true)
  /\ (path_exists env server_path = false ->
      connect_to_server path env w = (Raise (FileNotFoundError server_path), w)
      /\ (path = "mcp_server.py" -> forall serving,
          lifespan serving env initial_world
          = (Raise (FileNotFoundError server_path), log EvAclose initial_world))).
Proof.
  intros Hcwd. cbn zeta. split; [by apply isabs_abspath|].
  split; [apply connect_to_server_launch|].
  intros He.
  assert (Hc : forall w', connect_to_server path env w'
                          = (Raise (FileNotFoundError (OsPath.abspath (getcwd env) path)), w')).
  { intros w'. unfold connect_to_server. unfold_monad. by rewrite He. }
  split; [apply Hc|].
  intros -> serving. unfold lifespan. unfold try_finally, try_except, mbind, M_bind.
  rewrite Hc. by rewrite (cleanup_closed env initial_world eq_refl).
Qed.

Lemma connect_to_server_missing_script_witness :
  connect_to_server "mcp_server.py" Scenario.missing_script initial_world
  = (Raise (FileNotFoundError "/srv/backend/mcp_service/mcp_server.py"), initial_world)
  /\ lifespan (chat "hello";; mret tt) Scenario.missing_script initial_world
     = (Raise (FileNotFoundError "/srv/backend/mcp_service/mcp_server.py"),
        log EvAclose initial_world).
Proof.
  destruct (connect_to_server_missing_script Scenario.missing_script initial_world
              "mcp_server.py" eq_refl) as (_ & _ & H).
  destruct (H eq_refl) as [Hc Hl].
  exact (conj Hc (Hl eq_refl (chat "hello";; mret tt))).
Defined.

(** C8 as stated fails on the class of the exception: with the script
    missing, [connect_to_server] does fail before any launch, but with
    [FileNotFoundError]. *)
Lemma connect_to_server_not_ProcessLaunchError :
  fails_with "ProcessLaunchError"
    (fst (connect_to_server "mcp_server.py" Scenario.missing_script initial_world)) = false
  /\ fails_with "FileNotFoundError"
       (fst (connect_to_server "mcp_server.py" Scenario.missing_script initial_world)) = true
  /\ snd (connect_to_server "mcp_server.py" Scenario.missing_script initial_world)
     = initial_world.
Proof. vm_compute. done. Qed.

(** ** The request pipeline: [generate_plan], [generate_user_response], [chat] *)

Lemma first_tool_use_none items :
  List.filter is_tool_use items = [] -> no_plan (first_tool_use items).
Proof.
  induction items as [|item items IH]; intros H; [by left|].
  cbn [first_tool_use]. destruct item; try (right; by eexists).
  cbn [List.filter is_tool_use] in H. cbn [py_get].
  destruct (assoc "type" fields) as [t|].
  - destruct (py_eq_str t "tool_use"); [discriminate | by apply IH].
  - cbn [py_eq_str]. by apply IH.
Qed.

Lemma first_tool_use_strings (l : list string) : no_plan (first_tool_use (map JStr l)).
Proof. destruct l; [by left | right; by eexists]. Qed.

Lemma select_tool_use_none body :
  tool_use_blocks body = [] -> no_plan (select_tool_use body).
Proof.
  intros H. unfold select_tool_use.
  destruct body; try (right; by eexists).
  cbn [py_get tool_use_blocks] in *.
  destruct (assoc "content" fields) as [content|]; [|by left].
  destruct content; try (right; by eexists); cbn [py_iter].
  - apply first_tool_use_strings.
  - by apply first_tool_use_none.
  - rewrite <- (map_map fst JStr). apply first_tool_use_strings.
Qed.

Lemma generate_user_response_world message tool_result env w :
  snd (generate_user_response message tool_result env w)
  = log (EvHttpPost (response_request env message tool_result)) w.
Proof.
  unfold generate_user_response, post_json. unfold_monad.
  repeat case_match; simplify_eq/=; done.
Qed.

Lemma generate_plan_inv message env w plan w1 :
  generate_plan message env w = (Return plan, w1) -> plan <> JNull ->
  exists s tools,
    session (client w) = Some s
    /\ session_list_tools env (trace w) = Return tools
    /\ w1 = log (EvHttpPost (plan_request env message (map descriptor tools)))
              (log EvListTools w).
Proof.
  unfold generate_plan, get_mcp_tools, post_json. unfold_monad.
  intros H Hplan.
  destruct (session (client w)) as [s|]; [|by simplify_eq/=].
  destruct (session_list_tools env (trace w)) as [tools|e]; cbn in H;
    [|destruct (is_Exception e); by simplify_eq/=].
  exists s, tools. split; [done|]. split; [done|].
  repeat case_match; simplify_eq/=; done.
Qed.

Lemma generate_plan_no_plan message env w s tools resp body :
  session (client w) = Some s ->
  session_list_tools env (trace w) = Return tools ->
  http_post env (trace w ++ [EvListTools])
    (plan_request env message (map descriptor tools)) = Return resp ->
  raise_for_status resp = Return tt ->
  json resp = Return body ->
  no_plan (select_tool_use body) ->
  generate_plan message env w
  = (Return JNull,
     log (EvHttpPost (plan_request env message (map descriptor tools))) (log EvListTools w)).
Proof.
  intros Hs Ht Hp Hr Hj Hn.
  unfold generate_plan, get_mcp_tools, post_json. unfold_monad.
  rewrite Hs, Ht. cbn. rewrite Hp, Hr, Hj.
  destruct Hn as [->|(e & -> & He)]; [done | by rewrite He].
Qed.

Lemma generate_plan_gateway_failure message env w s tools e :
  session (client w) = Some s ->
  session_list_tools env (trace w) = Return tools ->
  http_post env (trace w ++ [EvListTools])
    (plan_request env message (map descriptor tools)) = Raise e ->
  is_Exception e = true ->
  generate_plan message env w
  = (Return JNull,
     log (EvHttpPost (plan_request env message (map descriptor tools))) (log EvListTools w)).
Proof.
  intros Hs Ht Hp He.
  unfold generate_plan, get_mcp_tools, post_json. unfold_monad.
  rewrite Hs, Ht. cbn. by rewrite Hp, He.
Qed.

Lemma chat_without_plan message env w w1 :
  generate_plan message env w = (Return JNull, w1) ->
  chat message env w = (Raise (HTTPException 500 not_subscriptable), w1).
Proof. intros H. unfold chat. unfold_monad. by rewrite H. Qed.

Lemma chat_direct message env w plan w1 tool :
  generate_plan message env w = (Return plan, w1) ->
  py_getitem plan "name" = Return tool ->
  py_eq_str tool "none" = true ->
  chat message env w
  = (reply_of env (fst (generate_user_response message None env w1)),
     log (EvHttpPost (response_request env message None)) w1).
Proof.
  intros H Hn Hnone. rewrite <- generate_user_response_world.
  unfold chat. unfold_monad. rewrite H, Hn, Hnone.
  destruct (generate_user_response message None env w1) as [[v|e] w2]; cbn.
  - by destruct v.
  - by destruct (is_Exception e).
Qed.

Lemma chat_tool message env w plan w1 tool arguments :
  generate_plan message env w = (Return plan, w1) ->
  py_getitem plan "name" = Return tool ->
  py_eq_str tool "none" = false ->
  py_getitem plan "input" = Return arguments ->
  chat message env w
  = match session_call_tool env (trace w1) tool arguments with
    | Raise e => (at_boundary (Raise e), log (EvCallTool tool arguments) w1)
    | Return result =>
        match first_text result with
        | Raise e => (at_boundary (Raise e), log (EvCallTool tool arguments) w1)
        | Return t =>
            (reply_of env (fst (generate_user_response message (Some [("result", t)]) env
                              (log (EvCallTool tool arguments) w1))),
             log (EvHttpPost (response_request env message (Some [("result", t)])))
               (log (EvCallTool tool arguments) w1))
        end
    end.
Proof.
  intros H Hn Hnone Hi.
  assert (Hplan : plan <> JNull) by (intros ->; discriminate).
  destruct (generate_plan_inv _ _ _ _ _ H Hplan) as (s & tools & Hs & _ & ->).
  unfold chat, session_attr_call_tool. unfold_monad. rewrite H, Hn, Hnone. cbn.
  rewrite Hs, Hi. cbn.
  destruct (session_call_tool _ _ _ _) as [result|e];
    [|by destruct (is_Exception e)].
  destruct (first_text result) as [t|e]; [|by destruct (is_Exception e)]. cbn.
  rewrite <- generate_user_response_world.
  destruct (generate_user_response _ _ _ _) as [[v|e] w2]; cbn.
  - by destruct v.
  - by destruct (is_Exception e).
Qed.

(** C1 (amended).  When the session lists its tools and the completion
    service answers the planning request with a reply that holds no
    tool-use block, [generate_plan] does not raise: it returns [None].
    [chat] then fails at [plan['name']] with an HTTP 500 error whose detail
    is the [TypeError] text; the only calls made are the tool listing and
    the planning request, so no response is generated, no tool is called
    and the request is never treated as a plan for ["none"]. *)
Theorem planning_without_tool_use (env : Env) (w : World) (message : string)
    (s : ClientSession) (tools : list Tool) (resp : Response) (body : Json) :
  session (client w) = Some s ->
  session_list_tools env (trace w) = Return tools ->
  http_post env (trace w ++ [EvListTools])
    (plan_request env message (map descriptor tools)) = Return resp ->
  raise_for_status resp = Return tt ->
  json resp = Return body ->
  tool_use_blocks body = [] ->
  let w' := log (EvHttpPost (plan_request env message (map descriptor tools)))
              (log EvListTools w) in
  generate_plan message env w = (Return JNull, w')
  /\ chat message env w = (Raise (HTTPException 500 not_subscriptable), w')
  /\ trace w' = trace w ++ [EvListTools;
                            EvHttpPost (plan_request env message (map descriptor tools))].
Proof.
  intros Hs Ht Hp Hr Hj Hb. cbn zeta.
  assert (Hplan := generate_plan_no_plan message env w s tools resp body Hs Ht Hp Hr Hj
                     (select_tool_use_none body Hb)).
  split; [exact Hplan|]. split; [by apply chat_without_plan|].
  cbn [trace log]. by rewrite <- app_assoc.
Qed.

Lemma planning_without_tool_use_witness :
  generate_plan "Tell me a joke" Scenario.text_only_plan
    (Scenario.connected Scenario.text_only_plan)
  = (Return JNull,
     log (EvHttpPost (plan_request Scenario.text_only_plan "Tell me a joke"
                        (map descriptor [Scenario.send_email_tool; Scenario.list_contacts_tool])))
       (log EvListTools (Scenario.connected Scenario.text_only_plan)))
  /\ fst (chat "Tell me a joke" Scenario.text_only_plan
            (Scenario.connected Scenario.text_only_plan))
     = Raise (HTTPException 500 not_subscriptable).
Proof.
  destruct (planning_without_tool_use Scenario.text_only_plan
              (Scenario.connected Scenario.text_only_plan) "Tell me a joke"
              {| read_stream := ReadStream 0; write_stream := WriteStream 0 |}
              [Scenario.send_email_tool; Scenario.list_contacts_tool]
              {| raise_for_status := Return tt;
                 json := Return (Scenario.reply [Scenario.text "I cannot help with that."]) |}
              (Scenario.reply [Scenario.text "I cannot help with that."])
              eq_refl eq_refl eq_refl eq_refl eq_refl eq_refl) as (Hplan & Hchat & _).
  split; [exact Hplan | by rewrite Hchat].
Defined.

(** C1 as stated fails: on a reply without tool-use block the planning
    step returns [None] instead of failing, and the failure of the
    pipeline is not a [PlanningError]. *)
Lemma planning_without_tool_use_returns_None :
  tool_use_blocks (Scenario.reply [Scenario.text "I cannot help with that."]) = []
  /\ fst (generate_plan "Tell me a joke" Scenario.text_only_plan
            (Scenario.connected Scenario.text_only_plan)) = Return JNull
  /\ fails_with "PlanningError"
       (fst (generate_plan "Tell me a joke" Scenario.text_only_plan
               (Scenario.connected Scenario.text_only_plan))) = false
  /\ fails_with "PlanningError"
       (fst (chat "Tell me a joke" Scenario.text_only_plan
               (Scenario.connected Scenario.text_only_plan))) = false.
Proof. vm_compute. done. Qed.

(** C2.  When the plan names ["none"], the pipeline consists of the tool
    listing and the planning request followed by exactly one call of
    [generate_user_response(message, None)], whose single request is the
    last call made: [call_tool] is never called.  The reply is built from
    what that call returned, so whenever it produced a text the caller
    receives exactly this text. *)
Theorem chat_direct_response (env : Env) (w : World) (message : string)
    (plan : Json) (w1 : World) :
  generate_plan message env w = (Return plan, w1) ->
  py_getitem plan "name" = Return (JStr "none") ->
  let user_response := fst (generate_user_response message None env w1) in
  let w2 := log (EvHttpPost (response_request env message None)) w1 in
  generate_user_response message None env w1 = (user_response, w2)
  /\ chat message env w = (reply_of env user_response, w2)
  /\ (exists tools,
        trace w2 = trace w ++ [EvListTools;
                               EvHttpPost (plan_request env message tools);
                               EvHttpPost (response_request env message None)])
  /\ (forall evs, trace w2 = trace w ++ evs -> existsb is_call_tool evs = false)
  /\ (forall t, user_response = Return (JStr t) ->
        chat message env w = (Return {| response := t |}, w2)).
Proof.
  intros Hplan Hname. cbn zeta.
  assert (Hne : plan <> JNull) by (intros ->; discriminate).
  destruct (generate_plan_inv _ _ _ _ _ Hplan Hne) as (s & tools & _ & _ & Hw1).
  assert (Hchat := chat_direct message env w plan w1 (JStr "none") Hplan Hname eq_refl).
  assert (Htrace : trace (log (EvHttpPost (response_request env message None)) w1)
                   = trace w ++ [EvListTools;
                                 EvHttpPost (plan_request env message (map descriptor tools));
                                 EvHttpPost (response_request env message None)]).
  { rewrite Hw1. cbn [trace log]. by rewrite <- !app_assoc. }
  split; [|split; [exact Hchat | split; [by eexists | split]]].
  - rewrite <- generate_user_response_world. by destruct (generate_user_response _ _ _ _).
  - intros evs Hevs. rewrite Htrace in Hevs. by apply app_inv_head in Hevs as <-.
  - intros t Ht. by rewrite Hchat, Ht.
Qed.

Lemma chat_direct_response_witness :
  chat "What's the weather?" Scenario.weather (Scenario.connected Scenario.weather)
  = (Return {| response := "It is sunny." |},
     log (EvHttpPost (response_request Scenario.weather "What's the weather?" None))
       (snd (generate_plan "What's the weather?" Scenario.weather
               (Scenario.connected Scenario.weather)))).
Proof.
  destruct (chat_direct_response Scenario.weather (Scenario.connected Scenario.weather)
              "What's the weather?" (Scenario.tool_use "none" (JObj []))
              (snd (generate_plan "What's the weather?" Scenario.weather
                      (Scenario.connected Scenario.weather)))
              eq_refl eq_refl) as (_ & _ & _ & _ & H).
  exact (H "It is sunny." eq_refl).
Defined.




(** C4 (amended).  Every request of the pipeline to the completion
    service is made with the 35-second timeout.  When the planning request
    raises (a timeout or a transport failure, as any [Exception]),
    [generate_plan] catches it and returns [None]; [chat] then fails with
    an HTTP 500 error whose detail is the [TypeError] text, not with the
    gateway's failure.  Nothing is called after the planning request: no
    tool, no response request. *)
Theorem planning_gateway_failure (env : Env) (w : World) (message : string)
    (s : ClientSession) (tools : list Tool) (e : PyExc) :
  session (client w) = Some s ->
  session_list_tools env (trace w) = Return tools ->
  http_post env (trace w ++ [EvListTools])
    (plan_request env message (map descriptor tools)) = Raise e ->
  is_Exception e = true ->
  let w' := log (EvHttpPost (plan_request env message (map descriptor tools)))
              (log EvListTools w) in
  generate_plan message env w = (Return JNull, w')
  /\ chat message env w = (Raise (HTTPException 500 not_subscriptable), w')
  /\ trace w' = trace w ++ [EvListTools;
                            EvHttpPost (plan_request env message (map descriptor tools))]
  /\ (forall message' env' w0, exists evs,
        trace (snd (chat message' env' w0)) = trace w0 ++ evs
        /\ Forall pipeline_call evs).
Proof.
  intros Hs Ht Hp He. cbn zeta.
  assert (Hplan := generate_plan_gateway_failure message env w s tools e Hs Ht Hp He).
  split; [exact Hplan|]. split; [by apply chat_without_plan|]. split.
  - cbn [trace log]. by rewrite <- app_assoc.
  - intros message' env' w0. by destruct (chat_respects message' env' w0) as (_ & _ & H).
Qed.

Lemma planning_gateway_failure_witness :
  chat "Email Alice that the report is ready" Scenario.plan_timeout
    (Scenario.connected Scenario.plan_timeout)
  = (Raise (HTTPException 500 not_subscriptable),
     log (EvHttpPost (plan_request Scenario.plan_timeout "Email Alice that the report is ready"
                        (map descriptor [Scenario.send_email_tool; Scenario.list_contacts_tool])))
       (log EvListTools (Scenario.connected Scenario.plan_timeout))).
Proof.
  destruct (planning_gateway_failure Scenario.plan_timeout
              (Scenario.connected Scenario.plan_timeout)
              "Email Alice that the report is ready"
              {| read_stream := ReadStream 0; write_stream := WriteStream 0 |}
              [Scenario.send_email_tool; Scenario.list_contacts_tool]
              Scenario.timed_out eq_refl eq_refl eq_refl eq_refl) as (_ & H & _).
  exact H.
Defined.

(** C4 as stated fails: a timeout of the planning request does not make
    the planning step fail, and the pipeline does not fail with a
    [GatewayUnavailableError]. *)
Lemma planning_timeout_is_swallowed :
  fst (generate_plan "Email Alice that the report is ready" Scenario.plan_timeout
         (Scenario.connected Scenario.plan_timeout)) = Return JNull
  /\ fails_with "GatewayUnavailableError"
       (fst (generate_plan "Email Alice that the report is ready" Scenario.plan_timeout
               (Scenario.connected Scenario.plan_timeout))) = false
  /\ fails_with "GatewayUnavailableError"
       (fst (chat "Email Alice that the report is ready" Scenario.plan_timeout
               (Scenario.connected Scenario.plan_timeout))) = false
  /\ fst (chat "Email Alice that the report is ready" Scenario.plan_timeout
            (Scenario.connected Scenario.plan_timeout))
     = Raise (HTTPException 500 not_subscriptable).
Proof. vm_compute. done. Qed.

(** ** The email tool: [send_email] *)

Lemma lookup_each_found lib self (l addresses : list string) : forall output,
  Forall2 (fun email address => EmailService.contacts self !! email = Some address)
    l addresses ->
  EmailService.lookup_each lib self l output = Return (output ++ addresses).
Proof.
  intros output H. revert output.
  induction H as [|email address l addresses He _ IH]; intros output; cbn.
  - by rewrite app_nil_r.
  - unfold EmailService.contacts_getitem. rewrite He, IH. by rewrite <- app_assoc.
Qed.

Lemma lookup_each_missing lib self (l : list string) (n : string) : forall output,
  In n l -> EmailService.contacts self !! n = None ->
  exists key,
    EmailService.lookup_each lib self l output = Raise (EmailService.KeyError_for lib key)
              /\ EmailService.contacts self !! key = None.
Proof.
  induction l as [|email l IH]; intros output Hin Hn; [destruct Hin|].
  cbn. unfold EmailService.contacts_getitem.
  destruct (EmailService.contacts self !! email) as [address|] eqn:He.
  - destruct Hin as [->|Hin]; [congruence | by apply IH].
  - by exists email.
Qed.

Lemma get_list_emails_missing lib self (l : list string) (n : string) :
  In n l -> EmailService.contacts self !! n = None ->
  exists key,
    EmailService.get_list_emails lib self (Some l) = Raise (EmailService.KeyError_for lib key)
              /\ EmailService.contacts self !! key = None.
Proof.
  intros Hin Hn. destruct (lookup_each_missing lib self l n [] Hin Hn) as (key & Hk & Hnone).
  exists key. split; [|done]. unfold EmailService.get_list_emails.
  destruct l; [destruct Hin|]. by rewrite Hk.
Qed.

Lemma send_email_unknown_to lib self to subject body cc bcc :
  EmailService.contacts self !! EmailService.lower lib to = None ->
  EmailService.send_email lib self to subject body cc bcc
  = (Raise (EmailService.KeyError_for lib (EmailService.lower lib to)), []).
Proof.
  intros H. unfold EmailService.send_email, EmailService.send_email_body,
    EmailService.get_contact_email, EmailService.contacts_getitem.
  by rewrite H.
Qed.

(** C9 (amended).  When the lower-cased recipient name is not a key of
    the directory, [send_email] raises [KeyError] for that name (the code
    has no [ToolExecutionError], and the exception is not turned into the
    error dictionary that [HttpError] gets); nothing is handed to Gmail.
    The pipeline does not abort on it.  When the session hands this
    failure back as the protocol reports it, a result marked [isError]
    whose first block is a text, [chat], which never reads [isError],
    takes that text as the tool result, makes the call of
    [generate_user_response] with it and answers the caller from what
    that call returned. *)
Theorem unknown_recipient_outcome (lib : EmailService.Library) (self : EmailService.t)
    (to subject body : string) (cc bcc : option (list string))
    (env : Env) (w : World) (message : string) (plan : Json) (w1 : World)
    (tool arguments : Json) :
  EmailService.contacts self !! EmailService.lower lib to = None ->
  generate_plan message env w = (Return plan, w1) ->
  py_getitem plan "name" = Return tool ->
  py_eq_str tool "none" = false ->
  py_getitem plan "input" = Return arguments ->
  reported (fst (EmailService.send_email lib self to subject body cc bcc))
    (session_call_tool env (trace w1) tool arguments) ->
  let w2 := log (EvCallTool tool arguments) w1 in
  EmailService.send_email lib self to subject body cc bcc
  = (Raise (EmailService.KeyError_for lib (EmailService.lower lib to)), [])
  /\ exists result t,
       session_call_tool env (trace w1) tool arguments = Return result
       /\ isError result = true
       /\ first_text result = Return t
       /\ chat message env w
          = (reply_of env (fst (generate_user_response message (Some [("result", t)]) env w2)),
             log (EvHttpPost (response_request env message (Some [("result", t)]))) w2).
Proof.
  intros Hto Hplan Hname Hnone Hinput Hrep. cbn zeta.
  assert (Hsend := send_email_unknown_to lib self to subject body cc bcc Hto).
  split; [exact Hsend|].
  rewrite Hsend in Hrep. destruct Hrep as (result & t & rest & Hcall & Herr & Hc).
  exists result, t. split; [exact Hcall|]. split; [exact Herr|].
  assert (Ht : first_text result = Return t) by (unfold first_text; by rewrite Hc).
  split; [exact Ht|].
  rewrite (chat_tool message env w plan w1 tool arguments Hplan Hname Hnone Hinput).
  by rewrite Hcall, Ht.
Qed.

Lemma unknown_recipient_outcome_witness :
  EmailService.send_email Directory.ascii Directory.lowercase "bob" "Report"
    "The report is ready" None None
  = (Raise (KeyError "bob"), [])
  /\ exists result t,
       session_call_tool Scenario.unknown_recipient
         (trace (snd (generate_plan "Email Bob that the report is ready"
                        Scenario.unknown_recipient
                        (Scenario.connected Scenario.unknown_recipient))))
         (JStr "send_email") Scenario.bob_input = Return result
       /\ isError result = true
       /\ first_text result = Return t
       /\ chat "Email Bob that the report is ready" Scenario.unknown_recipient
            (Scenario.connected Scenario.unknown_recipient)
          = (reply_of Scenario.unknown_recipient
               (fst (generate_user_response "Email Bob that the report is ready"
                       (Some [("result", t)]) Scenario.unknown_recipient
                       (log (EvCallTool (JStr "send_email") Scenario.bob_input)
                          (snd (generate_plan "Email Bob that the report is ready"
                                  Scenario.unknown_recipient
                                  (Scenario.connected Scenario.unknown_recipient)))))),
             log (EvHttpPost (response_request Scenario.unknown_recipient
                                "Email Bob that the report is ready" (Some [("result", t)])))
               (log (EvCallTool (JStr "send_email") Scenario.bob_input)
                  (snd (generate_plan "Email Bob that the report is ready"
                          Scenario.unknown_recipient
                          (Scenario.connected Scenario.unknown_recipient))))).
Proof.
  apply (unknown_recipient_outcome Directory.ascii Directory.lowercase "bob" "Report"
           "The report is ready" None None Scenario.unknown_recipient
           (Scenario.connected Scenario.unknown_recipient)
           "Email Bob that the report is ready"
           (Scenario.tool_use "send_email" Scenario.bob_input)
           (snd (generate_plan "Email Bob that the report is ready" Scenario.unknown_recipient
                   (Scenario.connected Scenario.unknown_recipient)))
           (JStr "send_email") Scenario.bob_input).
  - vm_compute. reflexivity.
  - reflexivity.
  - reflexivity.
  - reflexivity.
  - reflexivity.
  - exists {| content := [TextContent "Error executing tool send_email: 'bob'"];
              isError := true |},
      "Error executing tool send_email: 'bob'", [].
    repeat split; reflexivity.
Defined.

(** C9 as stated fails twice.  For a recipient that is not in the
    directory [send_email] raises [KeyError], not a
    [ToolExecutionError]; and when that failure comes back from the
    session as an error result, the pipeline goes on: the response
    request is made with the error text and the caller receives an
    answer, not an error. *)
Lemma unknown_recipient_not_aborted :
  EmailService.contacts Directory.lowercase !! "bob" = None
  /\ EmailService.send_email Directory.ascii Directory.lowercase "bob" "Report"
       "The report is ready" None None
     = (Raise (Exc "KeyError" "'bob'"), [])
  /\ fails_with "ToolExecutionError"
       (fst (EmailService.send_email Directory.ascii Directory.lowercase "bob" "Report"
               "The report is ready" None None)) = false
  /\ Scenario.tool_error "Error executing tool send_email: 'bob'"
     = Return {| content := [TextContent "Error executing tool send_email: 'bob'"];
                 isError := true |}
  /\ chat "Email Bob that the report is ready" Scenario.unknown_recipient
       (Scenario.connected Scenario.unknown_recipient)
     = (Return {| response := "I could not find Bob among your contacts." |},
        log (EvHttpPost
               (response_request Scenario.unknown_recipient
                  "Email Bob that the report is ready"
                  (Some [("result", "Error executing tool send_email: 'bob'")])))
          (log (EvCallTool (JStr "send_email") Scenario.bob_input)
             (snd (generate_plan "Email Bob that the report is ready"
                     Scenario.unknown_recipient
                     (Scenario.connected Scenario.unknown_recipient))))).
Proof. vm_compute. done. Qed.

Lemma lookup_each_raises lib self (l : list string) : forall output e,
  EmailService.lookup_each lib self l output = Raise e ->
  exists key, e = EmailService.KeyError_for lib key /\ EmailService.contacts self !! key = None.
Proof.
  induction l as [|email l IH]; intros output e H; [discriminate|].
  cbn in H. unfold EmailService.contacts_getitem in H.
  destruct (EmailService.contacts self !! email) as [address|] eqn:He.
  - by apply IH in H.
  - injection H as <-. by exists email.
Qed.

Lemma get_list_emails_raises lib self input e :
  EmailService.get_list_emails lib self input = Raise e ->
  exists key, e = EmailService.KeyError_for lib key /\ EmailService.contacts self !! key = None.
Proof.
  destruct input as [[|email l]|]; [discriminate | | discriminate].
  unfold EmailService.get_list_emails.
  destruct (EmailService.lookup_each lib self (email :: l) []) as [output|e'] eqn:E;
    [discriminate|].
  intros [= <-]. by apply lookup_each_raises in E.
Qed.

Lemma send_email_unknown_copy lib self n to subject body cc bcc :
  copies n cc bcc -> EmailService.contacts self !! n = None ->
  exists key,
    EmailService.send_email lib self to subject body cc bcc
    = (Raise (EmailService.KeyError_for lib key), [])
    /\ EmailService.contacts self !! key = None.
Proof.
  intros Hcopy Hn.
  unfold EmailService.send_email, EmailService.send_email_body,
    EmailService.get_contact_email, EmailService.contacts_getitem.
  destruct (EmailService.contacts self !! EmailService.lower lib to) as [address|] eqn:Hto;
    [|by eexists].
  destruct (EmailService.get_list_emails lib self bcc) as [bcc_emails|e] eqn:Eb.
  - destruct Hcopy as [Hin|Hin].
    + destruct cc as [l|]; [|done].
      destruct (get_list_emails_missing lib self l n Hin Hn) as (key & -> & Hk). by exists key.
    + destruct bcc as [l|]; [|done].
      destruct (get_list_emails_missing lib self l n Hin Hn) as (key & Hk & _). congruence.
  - destruct (get_list_emails_raises _ _ _ _ Eb) as (key & -> & Hk). by exists key.
Qed.

(** C10 (amended).  [send_email] looks the [to] name up after
    lower-casing it and looks every [cc] and [bcc] entry up as given.  So,
    in a directory whose keys are all lower-case, a name [n] that differs
    from a key [k] only in case resolves as [to] (a message that is
    submitted is addressed to the address of [k]) and fails with
    [KeyError] wherever it stands among the [cc] or [bcc] entries.  Case
    is that of [str.lower], whatever the alphabet. *)
Theorem recipient_case_handling (lib : EmailService.Library) (self : EmailService.t)
    (k v n : string) :
  lowercase_keys lib self ->
  EmailService.contacts self !! k = Some v ->
  EmailService.lower lib n = EmailService.lower lib k ->
  n <> k ->
  (forall input,
     EmailService.get_contact_email lib self input
     = EmailService.contacts_getitem lib self (EmailService.lower lib input))
  /\ (forall l addresses, l <> [] ->
        Forall2 (fun email address => EmailService.contacts self !! email = Some address)
          l addresses ->
        EmailService.get_list_emails lib self (Some l) = Return (Some addresses))
  /\ EmailService.get_contact_email lib self n = Return v
  /\ (forall subject body encoded_message,
        EmailService.encode lib
          {| EmailService.msg_content := body;
             EmailService.msg_to := v;
             EmailService.msg_subject := EmailService.strip lib subject;
             EmailService.msg_cc := None;
             EmailService.msg_bcc := None |} = Return encoded_message ->
        snd (EmailService.send_email lib self n subject body None None)
        = [encoded_message])
  /\ EmailService.get_list_emails lib self (Some [n]) = Raise (EmailService.KeyError_for lib n)
  /\ (forall to subject body cc bcc, copies n cc bcc ->
        exists key,
          EmailService.send_email lib self to subject body cc bcc
          = (Raise (EmailService.KeyError_for lib key), [])
          /\ EmailService.contacts self !! key = None).
Proof.
  intros Hlower Hk Hcase Hne.
  assert (Hkk : EmailService.lower lib k = k) by (apply Hlower; by rewrite Hk).
  assert (Hn : EmailService.contacts self !! n = None).
  { destruct (EmailService.contacts self !! n) as [a|] eqn:E; [|done].
    assert (EmailService.lower lib n = n) by (apply Hlower; by rewrite E). congruence. }
  assert (Hto : EmailService.get_contact_email lib self n = Return v).
  { unfold EmailService.get_contact_email, EmailService.contacts_getitem.
    by rewrite Hcase, Hkk, Hk. }
  split; [done|]. split.
  { intros l addresses Hl H. unfold EmailService.get_list_emails.
    rewrite (lookup_each_found lib self l addresses [] H). by destruct l. }
  split; [exact Hto|]. split.
  { intros subject body encoded_message He.
    unfold EmailService.send_email, EmailService.send_email_body.
    rewrite Hto. cbn. rewrite He.
    destruct (EmailService.service self _) as [sent|e]; cbn; [|done].
    destruct (EmailService.dict_get "id" sent); cbn;
      [destruct (EmailService.dict_get "threadId" sent); cbn|]; done. }
  split.
  { unfold EmailService.get_list_emails, EmailService.lookup_each,
      EmailService.contacts_getitem. by rewrite Hn. }
  intros to subject body cc bcc Hcopy. by apply (send_email_unknown_copy lib self n).
Qed.

Lemma recipient_case_handling_witness :
  EmailService.get_contact_email Directory.ascii Directory.lowercase "Alice"
  = Return "alice@example.com"
  /\ EmailService.get_list_emails Directory.ascii Directory.lowercase (Some ["Alice"])
     = Raise (KeyError "Alice").
Proof.
  destruct (recipient_case_handling Directory.ascii Directory.lowercase
              "alice" "alice@example.com" "Alice")
    as (_ & _ & Hto & _ & Hcc & _).
  - intros key [a Ha]. unfold Directory.lowercase in Ha. cbn in Ha.
    apply lookup_insert_Some in Ha as [[<- _]|[_ Ha]]; [done|].
    apply lookup_insert_Some in Ha as [[<- _]|[_ Ha]]; [done|].
    by rewrite lookup_empty in Ha.
  - reflexivity.
  - reflexivity.
  - discriminate.
  - exact (conj Hto Hcc).
Defined.

(** C10 as stated fails when the directory key itself is not lower-case:
    a name that differs from the key only in case does not resolve as
    [to]. *)
Lemma capitalised_key_not_found :
  EmailService.contacts Directory.capitalised !! "Alice" = Some "alice@example.com"
  /\ EmailService.lower Directory.ascii "alice" = EmailService.lower Directory.ascii "Alice"
  /\ String.eqb "alice" "Alice" = false
  /\ EmailService.get_contact_email Directory.ascii Directory.capitalised "alice"
     = Raise (KeyError "alice")
  /\ EmailService.get_contact_email Directory.ascii Directory.capitalised "Alice"
     = Raise (KeyError "alice").
Proof. vm_compute. done. Qed.

(** * Further properties of the code *)

(** ** [mcp_client.py] *)

Lemma aclose_outcome env w :
  match fst (aclose env w) with
  | Return _ => True
  | Raise e => exists h cb exc, ctx_exit env h cb exc = ExitRaise e
  end.
Proof.
  unfold aclose. unfold_monad.
  assert (H : forall cbs exc pending w0,
    (pending = true -> exists e h cb exc', exc = Some e /\ ctx_exit env h cb exc' = ExitRaise e) ->
    match run_exit_callbacks cbs exc pending env w0 with
    | (Return (exc', pending'), _) =>
        pending' = true ->
        exists e h cb exc'', exc' = Some e /\ ctx_exit env h cb exc'' = ExitRaise e
    | (Raise _, _) => False
    end).
  { induction cbs as [|cb rest IH]; intros exc pending w0 Hp; [done|].
    cbn [run_exit_callbacks]. unfold_monad.
    destruct (ctx_exit env (trace (with_client (set_exit_stack rest) w0)) cb exc)
      as [[|]|e] eqn:E.
    - apply IH. discriminate.
    - by apply IH.
    - apply IH. intros _. by exists e, (trace (with_client (set_exit_stack rest) w0)), cb, exc. }
  specialize (H (exit_stack (client w)) None false (log EvAclose w)).
  destruct (run_exit_callbacks _ _ _ _ _) as [[[exc pending]|e] w1]; cbn [fst];
    [|by destruct H].
  destruct exc as [e|]; [|done]. destruct pending; [|done]. cbn.
  destruct H as (e' & h & cb & exc' & [= <-] & He); [discriminate | done |].
  by exists h, cb, exc'.
Qed.

(** X1.  [cleanup] runs the exit callback of every context on the stack
    exactly once, last entered first, whatever the callbacks return or
    raise, and then leaves the stack empty.  It keeps the [session],
    [stdio] and [write] fields as they were (the client still holds its
    closed session), and it lets no [Exception] escape: it returns, or
    raises an exception outside [Exception] that an exit callback raised. *)
Theorem cleanup_runs_every_callback (env : Env) (w : World) :
  let w' := snd (cleanup env w) in
  trace w' = trace w ++ EvAclose :: map EvExit (exit_stack (client w))
  /\ exit_stack (client w') = []
  /\ session (client w') = session (client w)
  /\ stdio (client w') = stdio (client w)
  /\ write (client w') = write (client w)
  /\ match fst (cleanup env w) with
     | Return _ => True
     | Raise e => is_Exception e = false
                  /\ exists h cb exc, ctx_exit env h cb exc = ExitRaise e
     end.
Proof.
  cbn zeta. destruct (cleanup_world env w) as (Hc & _ & Ht).
  rewrite Hc, Ht. repeat split.
  pose proof (aclose_outcome env w) as Ha. unfold cleanup, try_except.
  destruct (aclose env w) as [[[]|e] w1]; cbn [fst] in *; [done|].
  destruct (is_Exception e) eqn:He; cbn; [done | by split].
Qed.

(** X2.  When the script exists and the SDK accepts the launch, the
    session and the handshake, [connect_to_server] returns normally having
    made exactly these three calls in this order.  The client then holds
    the transport streams and the session, the subprocess is alive, and
    the exit stack holds the session's callback above the transport's, so
    that closing leaves the session first. *)
Theorem connect_to_server_success (env : Env) (w : World) (path : string) :
  let server_params :=
    {| command := "python"; args := [OsPath.abspath (getcwd env) path] |} in
  let p := {| pid := length (trace w); params := server_params |} in
  let s := {| read_stream := ReadStream (length (trace w));
              write_stream := WriteStream (length (trace w)) |} in
  path_exists env (OsPath.abspath (getcwd env) path) = true ->
  stdio_client_enter env (trace w) server_params = Return tt ->
  client_session_enter env (trace w ++ [EvSpawn server_params]) = Return tt ->
  session_initialize env (trace w ++ [EvSpawn server_params; EvSessionEnter]) = Return tt ->
  connect_to_server path env w
  = (Return tt,
     {| client := {| session := Some s;
                     exit_stack := ClientSessionCtx s :: StdioClient p :: exit_stack (client w);
                     stdio := Some (ReadStream (length (trace w)));
                     write := Some (WriteStream (length (trace w))) |};
        running := p :: running w;
        trace := trace w ++ [EvSpawn server_params; EvSessionEnter; EvInitialize] |}).
Proof.
  cbn zeta. intros He Hs Hc Hi.
  unfold connect_to_server, enter_stdio_client, enter_client_session. unfold_monad.
  rewrite He. cbn [negb]. rewrite Hs. cbn. rewrite Hc. cbn.
  rewrite <- !app_assoc. cbn. rewrite Hi. f_equal.
  unfold log, with_client, with_running, set_session, push, set_transport. cbn.
  f_equal. by rewrite <- !app_assoc.
Qed.

Lemma connect_to_server_success_witness :
  connect_to_server "mcp_server.py" Scenario.email initial_world
  = (Return tt, Scenario.connected Scenario.email)
  /\ exit_stack (client (Scenario.connected Scenario.email))
     = [ClientSessionCtx {| read_stream := ReadStream 0; write_stream := WriteStream 0 |};
        StdioClient {| pid := 0;
                       params := {| command := "python";
                                    args := ["/srv/backend/mcp_service/mcp_server.py"] |} |}].
Proof.
  pose proof (connect_to_server_success Scenario.email initial_world "mcp_server.py"
                eq_refl eq_refl eq_refl eq_refl) as H.
  split; [exact H | reflexivity].
Defined.

(** X3.  When the handshake fails after the launch and the session were
    accepted, [connect_to_server] raises the handshake's exception and
    undoes nothing: the subprocess stays alive, both exit callbacks stay on
    the stack, and [self.session] is already set.  [get_mcp_tools], which
    only needs a session object, therefore still sends its request to this
    session that was never initialised. *)
Theorem connect_to_server_handshake_failure (env : Env) (w : World) (path : string)
    (e : PyExc) :
  let server_params :=
    {| command := "python"; args := [OsPath.abspath (getcwd env) path] |} in
  let p := {| pid := length (trace w); params := server_params |} in
  let s := {| read_stream := ReadStream (length (trace w));
              write_stream := WriteStream (length (trace w)) |} in
  let w1 := snd (connect_to_server path env w) in
  path_exists env (OsPath.abspath (getcwd env) path) = true ->
  stdio_client_enter env (trace w) server_params = Return tt ->
  client_session_enter env (trace w ++ [EvSpawn server_params]) = Return tt ->
  session_initialize env (trace w ++ [EvSpawn server_params; EvSessionEnter]) = Raise e ->
  fst (connect_to_server path env w) = Raise e
  /\ session (client w1) = Some s
  /\ exit_stack (client w1) = ClientSessionCtx s :: StdioClient p :: exit_stack (client w)
  /\ running w1 = p :: running w
  /\ (forall env', snd (get_mcp_tools env' w1) = log EvListTools w1).
Proof.
  cbn zeta. intros He Hs Hc Hi.
  assert (H : connect_to_server path env w
    = (Raise e,
       {| client := {| session := Some {| read_stream := ReadStream (length (trace w));
                                          write_stream := WriteStream (length (trace w)) |};
                       exit_stack :=
                         ClientSessionCtx {| read_stream := ReadStream (length (trace w));
                                             write_stream := WriteStream (length (trace w)) |}
                         :: StdioClient
                              {| pid := length (trace w);
                                 params := {| command := "python";
                                              args := [OsPath.abspath (getcwd env) path] |} |}
                         :: exit_stack (client w);
                       stdio := Some (ReadStream (length (trace w)));
                       write := Some (WriteStream (length (trace w))) |};
          running := {| pid := length (trace w);
                        params := {| command := "python";
                                     args := [OsPath.abspath (getcwd env) path] |} |}
                     :: running w;
          trace := trace w ++ [EvSpawn {| command := "python";
                                          args := [OsPath.abspath (getcwd env) path] |};
                               EvSessionEnter; EvInitialize] |})).
  { unfold connect_to_server, enter_stdio_client, enter_client_session. unfold_monad.
    rewrite He. cbn [negb]. rewrite Hs. cbn. rewrite Hc. cbn.
    rewrite <- !app_assoc. cbn. rewrite Hi. f_equal.
    unfold log, with_client, with_running, set_session, push, set_transport. cbn.
    f_equal. by rewrite <- !app_assoc. }
  rewrite H. cbn [fst snd client running session exit_stack]. repeat split.
  intros env'. unfold get_mcp_tools. unfold_monad. cbn. by destruct (session_list_tools _ _).
Qed.

Lemma connect_to_server_handshake_failure_witness :
  fst (connect_to_server "mcp_server.py" Scenario.handshake_fails initial_world)
  = Raise (Exc "McpError" "Connection closed")
  /\ running (snd (connect_to_server "mcp_server.py" Scenario.handshake_fails initial_world))
     = [{| pid := 0;
           params := {| command := "python";
                        args := ["/srv/backend/mcp_service/mcp_server.py"] |} |}].
Proof.
  destruct (connect_to_server_handshake_failure Scenario.handshake_fails
              initial_world "mcp_server.py" (Exc "McpError" "Connection closed")
              eq_refl eq_refl eq_refl eq_refl) as (H & _ & _ & Hr & _).
  exact (conj H Hr).
Defined.

(** X4.  Connecting and then cleaning up is a round trip on the
    resources: after a successful [connect_to_server] from a state with
    nothing running, [cleanup] leaves the session before the transport,
    the subprocess is gone and the stack is empty again. *)
Theorem connect_then_cleanup (env : Env) (w w1 : World) (path : string) :
  running w = [] ->
  exit_stack (client w) = [] ->
  connect_to_server path env w = (Return tt, w1) ->
  exists s p,
    exit_stack (client w1) = [ClientSessionCtx s; StdioClient p]
    /\ running w1 = [p]
    /\ trace (snd (cleanup env w1))
       = trace w1 ++ [EvAclose; EvExit (ClientSessionCtx s); EvExit (StdioClient p)]
    /\ running (snd (cleanup env w1)) = []
    /\ exit_stack (client (snd (cleanup env w1))) = [].
Proof.
  intros Hr Hst Hc.
  unfold connect_to_server, enter_stdio_client, enter_client_session in Hc.
  unfold_monad.
  destruct (negb _); [discriminate|].
  destruct (stdio_client_enter _ _ _) as [[]|e]; [|discriminate]. cbn in Hc.
  destruct (client_session_enter _ _) as [[]|e]; [|discriminate]. cbn in Hc.
  destruct (session_initialize _ _) as [[]|e]; [|discriminate].
  injection Hc as <-.
  set (w1 := log EvInitialize _).
  exists {| read_stream := ReadStream (length (trace w));
            write_stream := WriteStream (length (trace w)) |},
         {| pid := length (trace w);
            params := {| command := "python";
                         args := [OsPath.abspath (getcwd env) path] |} |}.
  destruct (cleanup_world env w1) as (Hcl & Hrun & Htr). rewrite Hcl, Hrun, Htr.
  subst w1. cbn. rewrite Hr, Hst. cbn. by rewrite Nat.eqb_refl.
Qed.

Lemma connect_then_cleanup_witness :
  exists s p,
    exit_stack (client (Scenario.connected Scenario.email)) = [ClientSessionCtx s; StdioClient p]
    /\ running (Scenario.connected Scenario.email) = [p]
    /\ trace (snd (cleanup Scenario.email (Scenario.connected Scenario.email)))
       = trace (Scenario.connected Scenario.email)
         ++ [EvAclose; EvExit (ClientSessionCtx s); EvExit (StdioClient p)]
    /\ running (snd (cleanup Scenario.email (Scenario.connected Scenario.email))) = []
    /\ exit_stack (client (snd (cleanup Scenario.email (Scenario.connected Scenario.email)))) = [].
Proof.
  exact (connect_then_cleanup Scenario.email initial_world
           (Scenario.connected Scenario.email) "mcp_server.py" eq_refl eq_refl eq_refl).
Defined.

Lemma try_except_return_outcome {A} (body : M A) (a : A) env w :
  escapes_no_Exception (fst (try_except body (fun _ => mret a) env w)).
Proof.
  unfold try_except. destruct (body env w) as [[x|e] w1]; [done|].
  by destruct (is_Exception e) eqn:He.
Qed.

Lemma cleanup_outcome env w : escapes_no_Exception (fst (cleanup env w)).
Proof. apply try_except_return_outcome. Qed.

Lemma guarded_cleanup env w :
  try_except cleanup (fun _ => mret tt) env w = cleanup env w.
Proof.
  pose proof (cleanup_outcome env w) as H. unfold try_except at 1.
  destruct (cleanup env w) as [[[]|e] w1]; [done|]. cbn in H. by rewrite H.
Qed.

(** X5.  [async_main] and [main] let no [Exception] escape: a failure of
    [connect_to_server] is caught and printed, [cleanup] catches its own,
    so each of them returns normally unless an exception outside
    [Exception] (a cancellation, an interrupt) is raised. *)
Theorem async_main_outcome (env : Env) (w : World) :
  escapes_no_Exception (fst (async_main env w))
  /\ escapes_no_Exception (fst (main env w)).
Proof.
  split; [|apply try_except_return_outcome].
  unfold async_main. unfold mbind, M_bind, modify. unfold try_finally.
  pose proof (try_except_return_outcome
                (connect_to_server "mcp_service/mcp_server.py") tt env
                (with_client (fun _ => MCPClient_new) w)) as Hb.
  destruct (try_except _ _ env _) as [r w1]. cbn [fst] in Hb.
  pose proof (cleanup_outcome env w1) as Hc.
  destruct (cleanup env w1) as [[[]|e] w2]; cbn [fst] in *; done.
Qed.

(** X6.  When [connect_to_server] fails, at whatever step, [lifespan]
    never reaches its [yield]: what it does is the same for every serving
    period.  It runs [cleanup] on the state the failed start-up left and
    then raises the start-up's exception (unless [cleanup] itself raised
    outside [Exception]). *)
Theorem lifespan_startup_failure (env : Env) (w w1 : World) (e : PyExc) (serving : M unit) :
  connect_to_server "mcp_server.py" env w = (Raise e, w1) ->
  lifespan serving env w
  = (after_finally (Raise e) (fst (cleanup env w1)), snd (cleanup env w1)).
Proof.
  intros H. unfold lifespan, try_finally, mbind, M_bind. rewrite H, guarded_cleanup.
  by destruct (cleanup env w1) as [[[]|e'] w2].
Qed.

Lemma lifespan_startup_failure_witness :
  fst (lifespan (chat "hello";; mret tt) Scenario.handshake_fails initial_world)
  = Raise (Exc "McpError" "Connection closed")
  /\ running (snd (lifespan (chat "hello";; mret tt) Scenario.handshake_fails initial_world))
     = [].
Proof.
  rewrite (lifespan_startup_failure Scenario.handshake_fails initial_world
             (snd (connect_to_server "mcp_server.py" Scenario.handshake_fails initial_world))
             (Exc "McpError" "Connection closed") (chat "hello";; mret tt) eq_refl).
  split; reflexivity.
Defined.

(** X7.  Once the start-up has succeeded, [lifespan] ends as the serving
    period ended: it returns when the serving period returned and raises
    the exception thrown into it otherwise, in both cases after [cleanup]
    has run on the state the serving period left (an exception raised by
    [cleanup] outside [Exception] takes precedence). *)
Theorem lifespan_after_serving (env : Env) (w w1 w2 : World) (serving : M unit)
    (r : Res unit) :
  connect_to_server "mcp_server.py" env w = (Return tt, w1) ->
  serving env w1 = (r, w2) ->
  lifespan serving env w
  = (after_finally r (fst (cleanup env w2)), snd (cleanup env w2)).
Proof.
  intros H Hs. unfold lifespan, try_finally, mbind, M_bind. rewrite H, Hs, guarded_cleanup.
  destruct r; by destruct (cleanup env w2) as [[[]|e'] w3].
Qed.

Lemma lifespan_after_serving_witness :
  fst (lifespan (mthrow (BaseExc "CancelledError" "")) Scenario.email initial_world)
  = Raise (BaseExc "CancelledError" "")
  /\ running (snd (lifespan (mthrow (BaseExc "CancelledError" "")) Scenario.email
                     initial_world)) = [].
Proof.
  rewrite (lifespan_after_serving Scenario.email initial_world
             (Scenario.connected Scenario.email) (Scenario.connected Scenario.email)
             (mthrow (BaseExc "CancelledError" "")) (Raise (BaseExc "CancelledError" ""))
             eq_refl eq_refl).
  split; reflexivity.
Defined.

(** ** [mcp_api.py]: planning *)

Lemma first_tool_use_returns items v :
  first_tool_use items = Return v -> v = JNull \/ (In v items /\ is_tool_use v = true).
Proof.
  induction items as [|item items IH]; cbn [first_tool_use]; [intros [= <-]; by left|].
  destruct item; cbn [py_get]; try discriminate.
  destruct (py_eq_str _ "tool_use") eqn:E.
  - intros [= <-]. right. split; [by left|]. cbn [is_tool_use].
    destruct (assoc "type" fields); [done | discriminate].
  - intros H. destruct (IH H) as [->|[Hin Ht]]; [by left|]. right. split; [by right | done].
Qed.

Lemma select_tool_use_returns body v :
  select_tool_use body = Return v -> v = JNull \/ is_tool_use v = true.
Proof.
  unfold select_tool_use. destruct (py_get body "content" (JArr [])) as [c|]; [|discriminate].
  destruct (py_iter c) as [items|]; [|discriminate].
  intros H. destruct (first_tool_use_returns _ _ H) as [->|[_ Ht]]; [by left | by right].
Qed.

(** X8.  Whatever the session and the completion service do,
    [generate_plan] ends in one of three ways: it returns [None], it
    returns a content block whose ["type"] is ["tool_use"], or an
    exception outside [Exception] passes through.  No [Exception] ever
    leaves it, and it changes neither the client nor the subprocesses. *)
Theorem generate_plan_outcome (env : Env) (w : World) (message : string) :
  match fst (generate_plan message env w) with
  | Return plan => plan = JNull \/ is_tool_use plan = true
  | Raise e => is_Exception e = false
  end
  /\ client (snd (generate_plan message env w)) = client w
  /\ running (snd (generate_plan message env w)) = running w.
Proof.
  split; [|by destruct (generate_plan_respects message env w) as (? & ? & _)].
  unfold generate_plan, try_except.
  destruct ((get_mcp_tools ≫= _) env w) as [[plan|e] w1] eqn:E; cbn [fst].
  - unfold get_mcp_tools, post_json in E. unfold_monad.
    repeat case_match; simplify_eq/=. by eapply select_tool_use_returns.
  - destruct (is_Exception e) eqn:He; cbn; [by left | done].
Qed.

Lemma first_tool_use_skips pre item post :
  Forall (fun b => exists fields, b = JObj fields /\ is_tool_use b = false) pre ->
  first_tool_use (pre ++ item :: post) = first_tool_use (item :: post).
Proof.
  induction 1 as [|b pre (fields & -> & Hb) _ IH]; [done|].
  cbn [app first_tool_use py_get]. cbn [is_tool_use] in Hb.
  destruct (assoc "type" fields); [by rewrite Hb | done].
Qed.

Lemma planning_run message env w s tools resp body :
  session (client w) = Some s ->
  session_list_tools env (trace w) = Return tools ->
  http_post env (trace w ++ [EvListTools])
    (plan_request env message (map descriptor tools)) = Return resp ->
  raise_for_status resp = Return tt ->
  json resp = Return body ->
  generate_plan message env w
  = (match select_tool_use body with
     | Return plan => Return plan
     | Raise e => if is_Exception e then Return JNull else Raise e
     end,
     log (EvHttpPost (plan_request env message (map descriptor tools))) (log EvListTools w)).
Proof.
  intros Hs Ht Hp Hr Hj.
  unfold generate_plan, get_mcp_tools, post_json. unfold_monad.
  rewrite Hs, Ht. cbn. rewrite Hp, Hr, Hj.
  destruct (select_tool_use body) as [plan|e]; [done|]. by destruct (is_Exception e).
Qed.

(** X9.  When the reply of the completion service is a dictionary whose
    ["content"] is a list, [generate_plan] returns the first block of that
    list whose ["type"] is ["tool_use"]: blocks of other types before it
    are skipped and everything after it is ignored. *)
Theorem generate_plan_first_tool_use (env : Env) (w : World) (message : string)
    (s : ClientSession) (tools : list Tool) (resp : Response)
    (fields : list (string * Json)) (pre post : list Json) (item : Json) :
  session (client w) = Some s ->
  session_list_tools env (trace w) = Return tools ->
  http_post env (trace w ++ [EvListTools])
    (plan_request env message (map descriptor tools)) = Return resp ->
  raise_for_status resp = Return tt ->
  json resp = Return (JObj fields) ->
  assoc "content" fields = Some (JArr (pre ++ item :: post)) ->
  Forall (fun b => exists f, b = JObj f /\ is_tool_use b = false) pre ->
  is_tool_use item = true ->
  generate_plan message env w
  = (Return item,
     log (EvHttpPost (plan_request env message (map descriptor tools))) (log EvListTools w)).
Proof.
  intros Hs Ht Hp Hr Hj Hc Hpre Hitem.
  rewrite (planning_run message env w s tools resp (JObj fields) Hs Ht Hp Hr Hj).
  unfold select_tool_use. cbn [py_get]. rewrite Hc. cbn [py_iter].
  rewrite (first_tool_use_skips pre item post Hpre). cbn [first_tool_use].
  destruct item; try discriminate. cbn [py_get is_tool_use] in *.
  destruct (assoc "type" fields0); [by rewrite Hitem | discriminate].
Qed.

Lemma generate_plan_first_tool_use_witness :
  generate_plan "Email Alice that the report is ready" Scenario.chatty_plan
    (Scenario.connected Scenario.chatty_plan)
  = (Return (Scenario.tool_use "send_email" Scenario.email_input),
     log (EvHttpPost
            (plan_request Scenario.chatty_plan "Email Alice that the report is ready"
               (map descriptor [Scenario.send_email_tool; Scenario.list_contacts_tool])))
       (log EvListTools (Scenario.connected Scenario.chatty_plan))).
Proof.
  apply (generate_plan_first_tool_use Scenario.chatty_plan
           (Scenario.connected Scenario.chatty_plan)
           "Email Alice that the report is ready"
           {| read_stream := ReadStream 0; write_stream := WriteStream 0 |}
           [Scenario.send_email_tool; Scenario.list_contacts_tool]
           {| raise_for_status := Return tt;
              json := Return (Scenario.reply
                                [Scenario.text "I will send it.";
                                 Scenario.tool_use "send_email" Scenario.email_input;
                                 Scenario.tool_use "none" (JObj [])]) |}
           [("role", JStr "assistant");
            ("content", JArr [Scenario.text "I will send it.";
                              Scenario.tool_use "send_email" Scenario.email_input;
                              Scenario.tool_use "none" (JObj [])]);
            ("stop_reason", JStr "end_turn")]
           [Scenario.text "I will send it."] [Scenario.tool_use "none" (JObj [])]
           (Scenario.tool_use "send_email" Scenario.email_input));
    try reflexivity.
  constructor; [|constructor]. by eexists.
Defined.

(** X10.  A content item that is not a dictionary and comes before any
    tool-use block makes [generate_plan] return [None], even when a
    tool-use block follows: the [AttributeError] of [item.get] is caught
    by the function's own [except] clause. *)
Theorem generate_plan_malformed_block (env : Env) (w : World) (message : string)
    (s : ClientSession) (tools : list Tool) (resp : Response)
    (fields : list (string * Json)) (pre post : list Json) (bad : Json) :
  session (client w) = Some s ->
  session_list_tools env (trace w) = Return tools ->
  http_post env (trace w ++ [EvListTools])
    (plan_request env message (map descriptor tools)) = Return resp ->
  raise_for_status resp = Return tt ->
  json resp = Return (JObj fields) ->
  assoc "content" fields = Some (JArr (pre ++ bad :: post)) ->
  Forall (fun b => exists f, b = JObj f /\ is_tool_use b = false) pre ->
  (forall f, bad <> JObj f) ->
  generate_plan message env w
  = (Return JNull,
     log (EvHttpPost (plan_request env message (map descriptor tools))) (log EvListTools w)).
Proof.
  intros Hs Ht Hp Hr Hj Hc Hpre Hbad.
  rewrite (planning_run message env w s tools resp (JObj fields) Hs Ht Hp Hr Hj).
  unfold select_tool_use. cbn [py_get]. rewrite Hc. cbn [py_iter].
  rewrite (first_tool_use_skips pre bad post Hpre). cbn [first_tool_use].
  destruct bad; try done. by destruct (Hbad fields0).
Qed.

Lemma generate_plan_malformed_block_witness :
  fst (generate_plan "Email Alice that the report is ready" Scenario.malformed_plan
         (Scenario.connected Scenario.malformed_plan))
  = Return JNull.
Proof.
  rewrite (generate_plan_malformed_block Scenario.malformed_plan
             (Scenario.connected Scenario.malformed_plan)
             "Email Alice that the report is ready"
             {| read_stream := ReadStream 0; write_stream := WriteStream 0 |}
             [Scenario.send_email_tool; Scenario.list_contacts_tool]
             {| raise_for_status := Return tt;
                json := Return (Scenario.reply
                                  [JStr "tool_use";
                                   Scenario.tool_use "send_email" Scenario.email_input]) |}
             [("role", JStr "assistant");
              ("content", JArr [JStr "tool_use";
                                Scenario.tool_use "send_email" Scenario.email_input]);
              ("stop_reason", JStr "end_turn")]
             [] [Scenario.tool_use "send_email" Scenario.email_input] (JStr "tool_use")
             eq_refl eq_refl eq_refl eq_refl eq_refl eq_refl (List.Forall_nil _)).
  - reflexivity.
  - discriminate.
Defined.

(** ** [mcp_api.py]: phrasing the answer *)

Lemma py_getitem_raises v key e : py_getitem v key = Raise e -> is_Exception e = true.
Proof. destruct v; cbn; try (by intros [= <-]). destruct (assoc key fields); by intros [= <-]. Qed.

Lemma py_getitem0_raises v e : py_getitem0 v = Raise e -> is_Exception e = true.
Proof.
  destruct v as [| | | |[|c s]|[|x l]|]; cbn; try discriminate; by intros [= <-].
Qed.

Lemma reply_text_raises body e : reply_text body = Raise e -> is_Exception e = true.
Proof.
  unfold reply_text.
  destruct (py_getitem body "content") as [c|e1] eqn:E1;
    [|intros [= <-]; by eapply py_getitem_raises].
  destruct (py_getitem0 c) as [first|e2] eqn:E2;
    [|intros [= <-]; by eapply py_getitem0_raises].
  apply py_getitem_raises.
Qed.

(** X11.  [generate_user_response] sends exactly one request, the one
    built from the message and the tool result, and changes nothing else.
    When the request, its status check or its decoding raises an
    [Exception], or the reply has no [content[0]["text"]], it returns
    [None]; otherwise it returns that value.  Only an exception outside
    [Exception] leaves it. *)
Theorem generate_user_response_outcome (env : Env) (w : World) (message : string)
    (tool_result : option (list (string * string))) :
  snd (generate_user_response message tool_result env w)
  = log (EvHttpPost (response_request env message tool_result)) w
  /\ fst (generate_user_response message tool_result env w)
     = match fst (post_json (response_request env message tool_result) env w) with
       | Return body =>
           match reply_text body with
           | Return v => Return v
           | Raise _ => Return JNull
           end
       | Raise e => if is_Exception e then Return JNull else Raise e
       end.
Proof.
  split; [apply generate_user_response_world|].
  unfold generate_user_response. unfold_monad.
  destruct (post_json _ env w) as [[body|e] w1]; cbn [fst].
  - destruct (reply_text body) as [v|e] eqn:E; [done|].
    by rewrite (reply_text_raises _ _ E).
  - by destruct (is_Exception e).
Qed.

(** X12.  On a well-formed reply, [generate_user_response] returns the
    ["text"] of the first content block and of no other: the blocks that
    follow are never read. *)
Theorem generate_user_response_first_block (env : Env) (w : World) (message : string)
    (tool_result : option (list (string * string))) (resp : Response)
    (fields first : list (string * Json)) (rest : list Json) (v : Json) :
  http_post env (trace w) (response_request env message tool_result) = Return resp ->
  raise_for_status resp = Return tt ->
  json resp = Return (JObj fields) ->
  assoc "content" fields = Some (JArr (JObj first :: rest)) ->
  assoc "text" first = Some v ->
  generate_user_response message tool_result env w
  = (Return v, log (EvHttpPost (response_request env message tool_result)) w).
Proof.
  intros Hp Hr Hj Hc Ht.
  unfold generate_user_response, post_json, reply_text. unfold_monad.
  rewrite Hp, Hr, Hj. cbn [py_getitem]. rewrite Hc. cbn [py_getitem0 py_getitem].
  by rewrite Ht.
Qed.

Lemma generate_user_response_first_block_witness :
  generate_user_response "What's the weather?" None Scenario.weather
    (Scenario.connected Scenario.weather)
  = (Return (JStr "It is sunny."),
     log (EvHttpPost (response_request Scenario.weather "What's the weather?" None))
       (Scenario.connected Scenario.weather)).
Proof.
  exact (generate_user_response_first_block Scenario.weather
           (Scenario.connected Scenario.weather) "What's the weather?" None
           {| raise_for_status := Return tt;
              json := Return (Scenario.reply [Scenario.text "It is sunny."]) |}
           [("role", JStr "assistant");
            ("content", JArr [Scenario.text "It is sunny."]);
            ("stop_reason", JStr "end_turn")]
           [("type", JStr "text"); ("text", JStr "It is sunny.")] [] (JStr "It is sunny.")
           eq_refl eq_refl eq_refl eq_refl eq_refl).
Defined.

(** ** [mcp_api.py]: the endpoints *)

Lemma endpoint_boundary {A} (body : M A) env w :
  endpoint_outcome
    (fst (try_except body (fun e => mthrow (HTTPException 500 (exc_str e))) env w)).
Proof.
  unfold try_except. destruct (body env w) as [[a|e] w1]; [done|].
  destruct (is_Exception e) eqn:He; [done|]. by destruct e.
Qed.

(** X13.  Both endpoints turn every [Exception] into an HTTP error with
    status 500: whatever the environment does, [chat] and [list_tools]
    either return their reply, raise [HTTPException] with status 500, or
    let an exception outside [Exception] pass. *)
Theorem endpoints_report_500 (env : Env) (w : World) (message : string) :
  endpoint_outcome (fst (chat message env w))
  /\ endpoint_outcome (fst (list_tools env w)).
Proof. split; apply endpoint_boundary. Qed.

(** X14.  Before the client is connected ([session] is [None]) both
    endpoints fail with status 500 without any call to the outside:
    [list_tools] reports the [AttributeError], while [chat] reports the
    [TypeError] of subscripting the plan that [generate_plan] returned as
    [None]. *)
Theorem endpoints_without_session (env : Env) (w : World) (message : string) :
  session (client w) = None ->
  chat message env w = (Raise (HTTPException 500 not_subscriptable), w)
  /\ list_tools env w
     = (Raise (HTTPException 500 "'NoneType' object has no attribute 'list_tools'"), w).
Proof.
  intros H. split.
  - apply chat_without_plan. unfold generate_plan, get_mcp_tools. unfold_monad. by rewrite H.
  - unfold list_tools, get_mcp_tools. unfold_monad. by rewrite H.
Qed.

Lemma endpoints_without_session_witness :
  chat "hello" Scenario.email initial_world
  = (Raise (HTTPException 500 not_subscriptable), initial_world).
Proof.
  destruct (endpoints_without_session Scenario.email initial_world "hello" eq_refl)
    as [H _].
  exact H.
Defined.

(** X15.  When the session fails to list its tools, no request is sent to
    the completion service: [generate_plan] returns [None] right after the
    listing, [chat] fails with status 500 on the missing plan, and
    [list_tools] fails with status 500 carrying the text of the session's
    exception. *)
Theorem listing_failure (env : Env) (w : World) (message : string)
    (s : ClientSession) (e : PyExc) :
  session (client w) = Some s ->
  session_list_tools env (trace w) = Raise e ->
  is_Exception e = true ->
  generate_plan message env w = (Return JNull, log EvListTools w)
  /\ chat message env w = (Raise (HTTPException 500 not_subscriptable), log EvListTools w)
  /\ list_tools env w = (Raise (HTTPException 500 (exc_str e)), log EvListTools w).
Proof.
  intros Hs Hl He.
  assert (Hplan : generate_plan message env w = (Return JNull, log EvListTools w)).
  { unfold generate_plan, get_mcp_tools. unfold_monad. by rewrite Hs, Hl, He. }
  split; [exact Hplan|]. split; [by apply chat_without_plan|].
  unfold list_tools, get_mcp_tools. unfold_monad. by rewrite Hs, Hl, He.
Qed.

Lemma listing_failure_witness :
  list_tools Scenario.listing_fails (Scenario.connected Scenario.listing_fails)
  = (Raise (HTTPException 500 "Connection closed"),
     log EvListTools (Scenario.connected Scenario.listing_fails))
  /\ fst (chat "hello" Scenario.listing_fails (Scenario.connected Scenario.listing_fails))
     = Raise (HTTPException 500 not_subscriptable).
Proof.
  destruct (listing_failure Scenario.listing_fails
              (Scenario.connected Scenario.listing_fails) "hello"
              {| read_stream := ReadStream 0; write_stream := WriteStream 0 |}
              (Exc "McpError" "Connection closed") eq_refl eq_refl eq_refl)
    as (_ & Hc & Hl).
  split; [exact Hl | by rewrite Hc].
Defined.

(** X16.  When the tool has run and returned a text but the response
    request then raises an [Exception], the caller gets an HTTP 500 error
    whose detail is the text of the error pydantic raises for
    [ChatResponse(response=None)] (the answer is [None], not a string),
    not the text of the gateway's failure; the tool call has been made
    and is not undone. *)
Theorem chat_response_failure_after_tool (env : Env) (w : World) (message : string)
    (plan : Json) (w1 : World) (tool arguments : Json) (result : CallToolResult)
    (t : string) (e : PyExc) :
  generate_plan message env w = (Return plan, w1) ->
  py_getitem plan "name" = Return tool ->
  py_eq_str tool "none" = false ->
  py_getitem plan "input" = Return arguments ->
  session_call_tool env (trace w1) tool arguments = Return result ->
  first_text result = Return t ->
  http_post env (trace w1 ++ [EvCallTool tool arguments])
    (response_request env message (Some [("result", t)])) = Raise e ->
  is_Exception e = true ->
  chat message env w
  = (Raise (HTTPException 500 (exc_str (ValidationError env JNull))),
     log (EvHttpPost (response_request env message (Some [("result", t)])))
       (log (EvCallTool tool arguments) w1)).
Proof.
  intros Hplan Hname Hnone Hinput Hcall Htext Hpost He.
  rewrite (chat_tool message env w plan w1 tool arguments Hplan Hname Hnone Hinput).
  rewrite Hcall, Htext. f_equal.
  unfold generate_user_response, post_json. unfold_monad. cbn [trace log].
  rewrite Hpost. cbn. by rewrite He.
Qed.

Lemma chat_response_failure_after_tool_witness :
  chat "Email Alice that the report is ready" Scenario.answer_timeout
    (Scenario.connected Scenario.answer_timeout)
  = (Raise (HTTPException 500 (Scenario.string_type_error JNull)),
     log (EvHttpPost (response_request Scenario.answer_timeout
                        "Email Alice that the report is ready"
                        (Some [("result", "{'status': 'success'}")])))
       (log (EvCallTool (JStr "send_email") Scenario.email_input)
          (snd (generate_plan "Email Alice that the report is ready" Scenario.answer_timeout
                  (Scenario.connected Scenario.answer_timeout))))).
Proof.
  exact (chat_response_failure_after_tool Scenario.answer_timeout
           (Scenario.connected Scenario.answer_timeout)
           "Email Alice that the report is ready"
           (Scenario.tool_use "send_email" Scenario.email_input)
           (snd (generate_plan "Email Alice that the report is ready" Scenario.answer_timeout
                   (Scenario.connected Scenario.answer_timeout)))
           (JStr "send_email") Scenario.email_input
           {| content := [TextContent "{'status': 'success'}"]; isError := false |}
           "{'status': 'success'}" Scenario.timed_out
           eq_refl eq_refl eq_refl eq_refl eq_refl eq_refl eq_refl eq_refl).
Defined.

Lemma chat_without_input message env w plan w1 tool e :
  generate_plan message env w = (Return plan, w1) ->
  py_getitem plan "name" = Return tool ->
  py_eq_str tool "none" = false ->
  py_getitem plan "input" = Raise e ->
  chat message env w = (Raise (HTTPException 500 (exc_str e)), w1).
Proof.
  intros H Hname Hnone Hinput.
  assert (Hplan : plan <> JNull) by (intros ->; discriminate).
  destruct (generate_plan_inv _ _ _ _ _ H Hplan) as (s & tools & Hs & _ & ->).
  unfold chat, session_attr_call_tool. unfold_monad. rewrite H, Hname, Hnone. cbn.
  rewrite Hs, Hinput. cbn. by rewrite (py_getitem_raises _ _ _ Hinput).
Qed.

Lemma generate_plan_calls message env w :
  (generate_plan message env w = (Return JNull, w)
   \/ (exists r, generate_plan message env w = (r, log EvListTools w)
                 /\ (r = Return JNull \/ exists e, r = Raise e))
   \/ exists r tools,
        generate_plan message env w
        = (r, log (EvHttpPost (plan_request env message tools)) (log EvListTools w))).
Proof.
  unfold generate_plan, get_mcp_tools, post_json. unfold_monad.
  destruct (session (client w)); [|by left]. right.
  destruct (session_list_tools env (trace w)) as [tools|e]; cbn.
  - right. repeat case_match; simplify_eq/=; by eexists _, _.
  - left. destruct (is_Exception e); eexists; (split; [done|]); [by left | right; by eexists].
Qed.

(** X17.  Whatever the environment does, the calls one [chat] request
    makes follow one of six patterns: nothing; the tool listing alone; the
    listing and the planning request; these two and a response request
    without tool result; these two and one tool call; or these three and
    a response request carrying that tool's text.  So a request lists the
    tools at most once, calls at most one tool, and never calls a tool
    before the plan or after the answer; it launches and closes nothing
    and leaves the client object as it found it. *)
Theorem chat_call_patterns (env : Env) (w : World) (message : string) :
  client (snd (chat message env w)) = client w
  /\ running (snd (chat message env w)) = running w
  /\ exists evs,
       trace (snd (chat message env w)) = trace w ++ evs /\ chat_calls env message evs.
Proof.
  destruct (chat_respects message env w) as (Hclient & Hrunning & _).
  split; [exact Hclient|]. split; [exact Hrunning|]. clear Hclient Hrunning.
  destruct (generate_plan_calls message env w) as [H|[(r & H & Hr)|(r & tools & H)]].
  - exists []. rewrite (chat_without_plan _ _ _ _ H). by rewrite app_nil_r; split; [|constructor].
  - exists [EvListTools]. split; [|constructor].
    destruct Hr as [->|[e ->]].
    + by rewrite (chat_without_plan _ _ _ _ H).
    + unfold chat. unfold_monad. rewrite H. by destruct (is_Exception e).
  - set (w1 := log _ (log EvListTools w)) in *.
    assert (Hw1 : trace w1 = trace w ++ [EvListTools; EvHttpPost (plan_request env message tools)]).
    { subst w1. cbn. by rewrite <- app_assoc. }
    assert (Hstop : forall (x : Res ChatResponse),
      exists evs, trace (snd (x, w1)) = trace w ++ evs /\ chat_calls env message evs).
    { intros x. eexists. split; [exact Hw1 | constructor]. }
    destruct r as [plan|e]; [|unfold chat; unfold_monad; rewrite H;
                               destruct (is_Exception e); apply Hstop].
    destruct (py_getitem plan "name") as [tool|e] eqn:Hname;
      [|unfold chat; unfold_monad; rewrite H, Hname; cbn;
        destruct (is_Exception e); apply Hstop].
    destruct (py_eq_str tool "none") eqn:Hnone.
    + rewrite (chat_direct message env w plan w1 tool H Hname Hnone). cbn [snd trace log].
      rewrite Hw1, <- app_assoc. eexists. split; [reflexivity | constructor].
    + destruct (py_getitem plan "input") as [arguments|e] eqn:Hinput.
      * rewrite (chat_tool message env w plan w1 tool arguments H Hname Hnone Hinput).
        destruct (session_call_tool _ _ _ _) as [result|e]; cbn [snd];
          [destruct (first_text result) as [t|e]; cbn [snd]|];
          cbn [trace log]; rewrite Hw1, <- ?app_assoc;
          (eexists; split; [reflexivity | constructor]).
      * rewrite (chat_without_input message env w plan w1 tool e H Hname Hnone Hinput).
        apply Hstop.
Qed.

(** X18.  A plan that is a tool-use block without ["name"], or without
    ["input"] while naming a tool, is reported as an HTTP 500 error
    carrying the [KeyError] text; nothing is called after the planning
    request, in particular no tool. *)
Theorem chat_plan_missing_fields (env : Env) (w : World) (message : string)
    (fields : list (string * Json)) (w1 : World) :
  generate_plan message env w = (Return (JObj fields), w1) ->
  (assoc "name" fields = None
   \/ exists tool, assoc "name" fields = Some tool /\ py_eq_str tool "none" = false
                   /\ assoc "input" fields = None) ->
  exists key,
    chat message env w = (Raise (HTTPException 500 (PyStr.repr key)), w1)
    /\ (key = "name" \/ key = "input").
Proof.
  intros H [Hn|(tool & Hn & Hnone & Hi)].
  - exists "name". split; [|by left].
    unfold chat. unfold_monad. rewrite H. cbn. by rewrite Hn.
  - exists "input". split; [|by right].
    apply (chat_without_input message env w (JObj fields) w1 tool (KeyError "input") H).
    + cbn. by rewrite Hn.
    + exact Hnone.
    + cbn. by rewrite Hi.
Qed.

Lemma chat_plan_missing_fields_witness :
  exists key,
    chat "Email Alice" Scenario.plan_without_input
      (Scenario.connected Scenario.plan_without_input)
    = (Raise (HTTPException 500 (PyStr.repr key)),
       snd (generate_plan "Email Alice" Scenario.plan_without_input
              (Scenario.connected Scenario.plan_without_input)))
    /\ (key = "name" \/ key = "input").
Proof.
  apply (chat_plan_missing_fields Scenario.plan_without_input
           (Scenario.connected Scenario.plan_without_input) "Email Alice"
           [("type", JStr "tool_use"); ("name", JStr "send_email")]).
  - reflexivity.
  - right. exists (JStr "send_email"). by repeat split.
Defined.

(** X29.  When the plan names a tool and [call_tool] itself raises an
    [Exception], the request fails with one HTTP 500 error carrying the
    exception's text, and the tool call is the last call made: no
    response is generated. *)
Theorem chat_tool_call_raises (env : Env) (w : World) (message : string)
    (plan : Json) (w1 : World) (tool arguments : Json) (e : PyExc) :
  generate_plan message env w = (Return plan, w1) ->
  py_getitem plan "name" = Return tool ->
  py_eq_str tool "none" = false ->
  py_getitem plan "input" = Return arguments ->
  session_call_tool env (trace w1) tool arguments = Raise e ->
  is_Exception e = true ->
  chat message env w
  = (Raise (HTTPException 500 (exc_str e)), log (EvCallTool tool arguments) w1).
Proof.
  intros Hplan Hname Hnone Hinput Hcall He.
  rewrite (chat_tool message env w plan w1 tool arguments Hplan Hname Hnone Hinput).
  rewrite Hcall. cbn. by rewrite He.
Qed.

Lemma chat_tool_call_raises_witness :
  chat "Email Alice that the report is ready" Scenario.tool_raises
    (Scenario.connected Scenario.tool_raises)
  = (Raise (HTTPException 500 "Connection closed"),
     log (EvCallTool (JStr "send_email") Scenario.email_input)
       (snd (generate_plan "Email Alice that the report is ready" Scenario.tool_raises
               (Scenario.connected Scenario.tool_raises)))).
Proof.
  exact (chat_tool_call_raises Scenario.tool_raises (Scenario.connected Scenario.tool_raises)
           "Email Alice that the report is ready"
           (Scenario.tool_use "send_email" Scenario.email_input)
           (snd (generate_plan "Email Alice that the report is ready" Scenario.tool_raises
                   (Scenario.connected Scenario.tool_raises)))
           (JStr "send_email") Scenario.email_input (Exc "McpError" "Connection closed")
           eq_refl eq_refl eq_refl eq_refl eq_refl eq_refl).
Defined.

(** ** [email_service.py]: [send_email] *)

Lemma lookup_each_returns lib self (l : list string) : forall output out,
  EmailService.lookup_each lib self l output = Return out ->
  exists addresses, out = output ++ addresses /\ resolved self l addresses.
Proof.
  induction l as [|email l IH]; intros output out H; cbn in H.
  - injection H as <-. exists []. split; [by rewrite app_nil_r | constructor].
  - unfold EmailService.contacts_getitem in H.
    destruct (EmailService.contacts self !! email) as [address|] eqn:He; [|discriminate].
    destruct (IH _ _ H) as (addresses & -> & Hr).
    exists (address :: addresses). split; [by rewrite <- app_assoc | by constructor].
Qed.

Lemma lookup_each_first_missing lib self (l : list string) : forall output e,
  EmailService.lookup_each lib self l output = Raise e ->
  exists pre key post found,
    l = pre ++ key :: post /\ resolved self pre found
    /\ EmailService.contacts self !! key = None /\ e = EmailService.KeyError_for lib key.
Proof.
  induction l as [|email l IH]; intros output e H; [discriminate|].
  cbn in H. unfold EmailService.contacts_getitem in H.
  destruct (EmailService.contacts self !! email) as [address|] eqn:He.
  - destruct (IH _ _ H) as (pre & key & post & found & -> & Hr & Hk & ->).
    exists (email :: pre), key, post, (address :: found). repeat split; [|done].
    by constructor.
  - injection H as <-. exists [], email, l, []. repeat split; [constructor | done].
Qed.

(** X19.  [get_list_emails] returns [None] for [None] and for the empty
    list.  For a non-empty list it returns the addresses of all entries,
    one for each and in the order given, when every entry is a key of the
    directory; otherwise it raises [KeyError] for the first entry, in
    that order, that is not a key. *)
Theorem get_list_emails_cases (lib : EmailService.Library) (self : EmailService.t)
    (input : option (list string)) :
  match EmailService.get_list_emails lib self input with
  | Return None => given input = []
  | Return (Some output) =>
      given input <> [] /\ resolved self (given input) output
      /\ length output = length (given input)
  | Raise e =>
      exists pre key post found,
        given input = pre ++ key :: post /\ resolved self pre found
        /\ EmailService.contacts self !! key = None /\ e = EmailService.KeyError_for lib key
  end.
Proof.
  destruct input as [[|email l]|]; [done | | done].
  unfold EmailService.get_list_emails.
  destruct (EmailService.lookup_each lib self (email :: l) []) as [output|e] eqn:E.
  - destruct (lookup_each_returns _ _ _ _ _ E) as (addresses & -> & Hr).
    cbn [app given]. split; [done|]. split; [done|]. symmetry. by eapply Forall2_length.
  - by apply lookup_each_first_missing in E.
Qed.

Lemma get_list_emails_resolved lib self x addresses :
  resolved self (given x) addresses ->
  EmailService.get_list_emails lib self x
  = Return (match addresses with [] => None | _ => Some addresses end)
  /\ EmailService.joined x (match addresses with [] => None | _ => Some addresses end)
     = header addresses.
Proof.
  intros H. destruct x as [[|email l]|]; cbn [given] in H.
  - by inversion H.
  - unfold EmailService.get_list_emails. rewrite (lookup_each_found lib self _ _ [] H).
    inversion H; subst. done.
  - by inversion H.
Qed.

(** X20.  When the lower-cased [to] name and every [cc] and [bcc] entry
    are keys of the directory and the [email] package accepts the
    message, [send_email] submits exactly one encoded message: that of
    the message addressed to the address found for [to], with the body
    unchanged, the subject as [str.strip] leaves it, and a [cc] ([bcc])
    header that joins the addresses found with [", "] in the order given,
    or no such header when the list is empty or absent.  When Gmail
    answers with a dictionary holding ["id"] and ["threadId"], the result
    is the success dictionary carrying these two values. *)
Theorem send_email_success (lib : EmailService.Library) (self : EmailService.t)
    (to subject body : string) (cc bcc : option (list string)) (address : string)
    (cc_emails bcc_emails : list string) (encoded_message : string)
    (sent_message : list (string * string)) (message_id thread_id : string) :
  let message :=
    {| EmailService.msg_content := body;
       EmailService.msg_to := address;
       EmailService.msg_subject := EmailService.strip lib subject;
       EmailService.msg_cc := header cc_emails;
       EmailService.msg_bcc := header bcc_emails |} in
  EmailService.contacts self !! EmailService.lower lib to = Some address ->
  resolved self (given cc) cc_emails ->
  resolved self (given bcc) bcc_emails ->
  EmailService.encode lib message = Return encoded_message ->
  EmailService.service self encoded_message = Return sent_message ->
  EmailService.dict_get "id" sent_message = Return message_id ->
  EmailService.dict_get "threadId" sent_message = Return thread_id ->
  EmailService.send_email lib self to subject body cc bcc
  = (Return (EmailService.Success message_id thread_id), [encoded_message]).
Proof.
  cbn zeta. intros Hto Hcc Hbcc He Hs Hid Hth.
  destruct (get_list_emails_resolved lib self cc cc_emails Hcc) as [Ec Jc].
  destruct (get_list_emails_resolved lib self bcc bcc_emails Hbcc) as [Eb Jb].
  unfold EmailService.send_email, EmailService.send_email_body,
    EmailService.get_contact_email, EmailService.contacts_getitem.
  rewrite Hto, Eb, Ec, Jc, Jb, He, Hs, Hid, Hth. done.
Qed.

Lemma send_email_success_witness :
  exists encoded_message,
    EmailService.encode Directory.ascii
      {| EmailService.msg_content := "The report is ready";
         EmailService.msg_to := "alice@example.com";
         EmailService.msg_subject := "Report";
         EmailService.msg_cc := Some "carol@example.com, alice@example.com";
         EmailService.msg_bcc := None |} = Return encoded_message
    /\ EmailService.send_email Directory.ascii Directory.lowercase "Alice" "  Report "
         "The report is ready" (Some ["carol"; "alice"]) None
       = (Return (EmailService.Success "18c2f0" "18c2f0"), [encoded_message]).
Proof.
  eexists. split; [reflexivity|].
  apply (send_email_success Directory.ascii Directory.lowercase "Alice" "  Report "
           "The report is ready" (Some ["carol"; "alice"]) None "alice@example.com"
           ["carol@example.com"; "alice@example.com"] [] _
           [("id", "18c2f0"); ("threadId", "18c2f0"); ("labelIds", "SENT")]
           "18c2f0" "18c2f0"); try reflexivity.
  - repeat constructor.
  - constructor.
Defined.

(** X21.  Once the recipients are resolved, a failure of what follows
    is handled according to its class only: an [HttpError], or an
    exception of a class derived from it, becomes the error dictionary
    carrying its text and [send_email] returns normally; any other
    exception is raised to the caller.  When it is the building and
    encoding of the message that fails (the [email] package refuses a
    header value with a line break inside with a [ValueError]), nothing
    has been submitted; when it is the submission, exactly that one
    message has. *)
Theorem send_email_submission_failure (lib : EmailService.Library) (self : EmailService.t)
    (to subject body : string) (cc bcc : option (list string)) (address : string)
    (cc_emails bcc_emails : list string) :
  let message :=
    {| EmailService.msg_content := body;
       EmailService.msg_to := address;
       EmailService.msg_subject := EmailService.strip lib subject;
       EmailService.msg_cc := header cc_emails;
       EmailService.msg_bcc := header bcc_emails |} in
  EmailService.contacts self !! EmailService.lower lib to = Some address ->
  resolved self (given cc) cc_emails ->
  resolved self (given bcc) bcc_emails ->
  (forall e, EmailService.encode lib message = Raise e ->
     EmailService.send_email lib self to subject body cc bcc
     = (if EmailService.is_HttpError e
        then Return (EmailService.Error (exc_str e))
        else Raise e,
        []))
  /\ (forall encoded_message e,
        EmailService.encode lib message = Return encoded_message ->
        EmailService.service self encoded_message = Raise e ->
        EmailService.send_email lib self to subject body cc bcc
        = (if EmailService.is_HttpError e
           then Return (EmailService.Error (exc_str e))
           else Raise e,
           [encoded_message])).
Proof.
  cbn zeta. intros Hto Hcc Hbcc.
  destruct (get_list_emails_resolved lib self cc cc_emails Hcc) as [Ec Jc].
  destruct (get_list_emails_resolved lib self bcc bcc_emails Hbcc) as [Eb Jb].
  unfold EmailService.send_email, EmailService.send_email_body,
    EmailService.get_contact_email, EmailService.contacts_getitem.
  rewrite Hto, Eb, Ec, Jc, Jb. split.
  - intros e He. by rewrite He.
  - intros encoded_message e He Hs. by rewrite He, Hs.
Qed.

Lemma send_email_submission_failure_witness :
  EmailService.send_email Directory.ascii Directory.lowercase "alice"
    ("Report" +:+ nl +:+ "bcc: eve@example.com") "The report is ready" None None
  = (Raise (Exc "ValueError"
              "Header values may not contain linefeed or carriage return characters"),
     [])
  /\ exists encoded_message,
       EmailService.send_email Directory.ascii Directory.lowercase "alice"
         "Report" "The report is ready" None None
       = (Return (EmailService.Success "18c2f0" "18c2f0"), [encoded_message])
       /\ EmailService.send_email Directory.ascii
            {| EmailService.contacts := EmailService.contacts Directory.lowercase;
               EmailService.service := fun _ =>
                 Raise (Exc "ResumableUploadError" "<HttpError 403 'Quota exceeded'>") |}
            "alice" "Report" "The report is ready" None None
          = (Return (EmailService.Error "<HttpError 403 'Quota exceeded'>"),
             [encoded_message]).
Proof.
  split.
  - destruct (send_email_submission_failure Directory.ascii Directory.lowercase "alice"
                ("Report" +:+ nl +:+ "bcc: eve@example.com") "The report is ready"
                None None "alice@example.com" [] [] eq_refl
                (List.Forall2_nil _) (List.Forall2_nil _)) as [H _].
    exact (H _ eq_refl).
  - eexists. split; [reflexivity|].
    destruct (send_email_submission_failure Directory.ascii
                {| EmailService.contacts := EmailService.contacts Directory.lowercase;
                   EmailService.service := fun _ =>
                     Raise (Exc "ResumableUploadError" "<HttpError 403 'Quota exceeded'>") |}
                "alice" "Report" "The report is ready"
                None None "alice@example.com" [] [] eq_refl
                (List.Forall2_nil _) (List.Forall2_nil _)) as [_ H].
    exact (H _ _ eq_refl eq_refl).
Defined.

(** X22.  When Gmail accepts the message but its answer lacks ["id"] or
    ["threadId"], [send_email] raises [KeyError] for the missing key
    although the message has been submitted. *)
Theorem send_email_answer_without_ids (lib : EmailService.Library) (self : EmailService.t)
    (to subject body : string) (cc bcc : option (list string)) (address : string)
    (cc_emails bcc_emails : list string) (encoded_message : string)
    (sent_message : list (string * string)) (key : string) :
  let message :=
    {| EmailService.msg_content := body;
       EmailService.msg_to := address;
       EmailService.msg_subject := EmailService.strip lib subject;
       EmailService.msg_cc := header cc_emails;
       EmailService.msg_bcc := header bcc_emails |} in
  EmailService.contacts self !! EmailService.lower lib to = Some address ->
  resolved self (given cc) cc_emails ->
  resolved self (given bcc) bcc_emails ->
  EmailService.encode lib message = Return encoded_message ->
  EmailService.service self encoded_message = Return sent_message ->
  (key = "id" \/ key = "threadId") ->
  Forall (fun kv => fst kv <> key) sent_message ->
  exists missing,
    EmailService.send_email lib self to subject body cc bcc
    = (Raise (KeyError missing), [encoded_message])
    /\ (missing = "id" \/ missing = "threadId").
Proof.
  cbn zeta. intros Hto Hcc Hbcc He Hs Hkey Hmiss.
  destruct (get_list_emails_resolved lib self cc cc_emails Hcc) as [Ec Jc].
  destruct (get_list_emails_resolved lib self bcc bcc_emails Hbcc) as [Eb Jb].
  assert (Hget : EmailService.dict_get key sent_message = Raise (KeyError key)).
  { clear -Hmiss. induction Hmiss as [|[k v] d Hk _ IH]; [done|]. cbn in *.
    destruct (String.eqb k key) eqn:E; [|done]. by apply String.eqb_eq in E. }
  unfold EmailService.send_email, EmailService.send_email_body,
    EmailService.get_contact_email, EmailService.contacts_getitem.
  rewrite Hto, Eb, Ec, Jc, Jb, He, Hs.
  destruct (EmailService.dict_get "id" sent_message) as [message_id|e1] eqn:E1.
  - destruct Hkey as [-> | ->]; [congruence|]. rewrite Hget. cbn.
    exists "threadId". split; [done | by right].
  - assert (e1 = KeyError "id") as ->.
    { clear -E1. induction sent_message as [|[k v] d IH]; cbn in E1; [congruence|].
      destruct (String.eqb k "id"); [discriminate | by apply IH]. }
    cbn. exists "id". split; [done | by left].
Qed.

Lemma send_email_answer_without_ids_witness :
  exists encoded_message missing,
    EmailService.send_email Directory.ascii
      {| EmailService.contacts := EmailService.contacts Directory.lowercase;
         EmailService.service := fun _ => Return [("id", "18c2f0")] |}
      "alice" "Report" "The report is ready" None None
    = (Raise (KeyError missing), [encoded_message])
    /\ (missing = "id" \/ missing = "threadId").
Proof.
  eexists.
  apply (send_email_answer_without_ids Directory.ascii
           {| EmailService.contacts := EmailService.contacts Directory.lowercase;
              EmailService.service := fun _ => Return [("id", "18c2f0")] |}
           "alice" "Report" "The report is ready" None None "alice@example.com" [] [] _
           [("id", "18c2f0")] "threadId" eq_refl (List.Forall2_nil _) (List.Forall2_nil _)
           eq_refl eq_refl (or_intror eq_refl)).
  constructor; [discriminate | constructor].
Defined.


(** ** [email_service.py]: [_authenticate] and [__init__] *)

(** X25.  [_authenticate] builds the Gmail service at most once, as its
    last call, and only with credentials it can account for: either the
    valid credentials read from the token file, in which case nothing is
    refreshed, requested or written, or credentials whose JSON it has
    written to [token_path] immediately before the [build].  It never
    writes without building next, and it writes at most once. *)
Theorem authenticate_saves_new_credentials (env : EmailServiceInit.AuthEnv)
    (credentials_path : option string) (token_path : string) :
  let evs := snd (EmailServiceInit._authenticate env credentials_path token_path) in
  (forallb (fun ev => negb (is_build ev) && negb (is_write ev)) evs = true
   /\ exists e, fst (EmailServiceInit._authenticate env credentials_path token_path) = Raise e)
  \/ (exists c,
        evs = [EmailServiceInit.EvTokenExists token_path;
               EmailServiceInit.EvLoadToken token_path;
               EmailServiceInit.EvBuild c]
        /\ EmailServiceInit.valid c = true
        /\ EmailServiceInit.from_authorized_user_file env token_path = Return c
        /\ fst (EmailServiceInit._authenticate env credentials_path token_path)
           = EmailServiceInit.build env c)
  \/ (exists pre c,
        forallb (fun ev => negb (is_build ev) && negb (is_write ev)) pre = true
        /\ (evs = pre ++ [EmailServiceInit.EvWriteToken token_path (EmailServiceInit.to_json c);
                          EmailServiceInit.EvBuild c]
            /\ fst (EmailServiceInit._authenticate env credentials_path token_path)
               = EmailServiceInit.build env c
            \/ evs = pre ++ [EmailServiceInit.EvWriteToken token_path
                               (EmailServiceInit.to_json c)]
               /\ exists e, EmailServiceInit.write_token env token_path
                              (EmailServiceInit.to_json c) = Raise e)).
Proof.
  cbn zeta.
  unfold EmailServiceInit._authenticate, EmailServiceInit.with_creds, EmailServiceInit.renew,
    EmailServiceInit.run_flow, EmailServiceInit.save_token, EmailServiceInit.build_service,
    EmailServiceInit.and_then.
  destruct (EmailServiceInit.token_exists env token_path); cbn.
  - destruct (EmailServiceInit.from_authorized_user_file env token_path) as [c|e]; cbn;
      [|left; split; [done | by eexists]].
    destruct (EmailServiceInit.valid c) eqn:Hv; cbn.
    { right. left. exists c. by destruct (EmailServiceInit.build env c). }
    destruct (EmailServiceInit.expired c && EmailServiceInit.nonempty _); cbn.
    + destruct (EmailServiceInit.refresh env c) as [c'|e]; cbn;
        [|left; split; [done | by eexists]].
      right. right. exists [EmailServiceInit.EvTokenExists token_path;
                            EmailServiceInit.EvLoadToken token_path;
                            EmailServiceInit.EvRefresh c], c'.
      split; [done|].
      destruct (EmailServiceInit.write_token env token_path _) as [[]|e] eqn:Hw; cbn;
        [left; by destruct (EmailServiceInit.build env c') | right; split; [done | by eexists]].
    + destruct (EmailServiceInit.from_client_secrets_file env credentials_path) as [[]|e]; cbn;
        [|left; split; [done | by eexists]].
      destruct (EmailServiceInit.run_local_server env) as [c'|e]; cbn;
        [|left; split; [done | by eexists]].
      right. right. exists [EmailServiceInit.EvTokenExists token_path;
                            EmailServiceInit.EvLoadToken token_path;
                            EmailServiceInit.EvClientSecrets credentials_path;
                            EmailServiceInit.EvRunLocalServer], c'.
      split; [done|].
      destruct (EmailServiceInit.write_token env token_path _) as [[]|e] eqn:Hw; cbn;
        [left; by destruct (EmailServiceInit.build env c') | right; split; [done | by eexists]].
  - destruct (EmailServiceInit.from_client_secrets_file env credentials_path) as [[]|e]; cbn;
      [|left; split; [done | by eexists]].
    destruct (EmailServiceInit.run_local_server env) as [c'|e]; cbn;
      [|left; split; [done | by eexists]].
    right. right. exists [EmailServiceInit.EvTokenExists token_path;
                          EmailServiceInit.EvClientSecrets credentials_path;
                          EmailServiceInit.EvRunLocalServer], c'.
    split; [done|].
    destruct (EmailServiceInit.write_token env token_path _) as [[]|e] eqn:Hw; cbn;
      [left; by destruct (EmailServiceInit.build env c') | right; split; [done | by eexists]].
Qed.

Ltac authenticate_step :=
  match goal with
  | |- context [if EmailServiceInit.token_exists ?e ?p then _ else _] =>
      destruct (EmailServiceInit.token_exists e p) eqn:Hexists
  | |- context [match EmailServiceInit.from_authorized_user_file ?e ?p with _ => _ end] =>
      destruct (EmailServiceInit.from_authorized_user_file e p) as [c|e0] eqn:Hload
  | |- context [if EmailServiceInit.valid ?x then _ else _] =>
      destruct (EmailServiceInit.valid x) eqn:Hvalid
  | |- context [EmailServiceInit.expired ?x && _] =>
      destruct (EmailServiceInit.expired x) eqn:Hexpired
  | |- context [if EmailServiceInit.nonempty ?x then _ else _] =>
      destruct (EmailServiceInit.nonempty x) eqn:Htoken
  | |- context [match EmailServiceInit.refresh ?e ?x with _ => _ end] =>
      destruct (EmailServiceInit.refresh e x) as [c'|e0] eqn:Hrefresh
  | |- context [match EmailServiceInit.from_client_secrets_file ?e ?p with _ => _ end] =>
      destruct (EmailServiceInit.from_client_secrets_file e p) as [[]|e0] eqn:Hsecrets
  | |- context [match EmailServiceInit.run_local_server ?e with _ => _ end] =>
      destruct (EmailServiceInit.run_local_server e) as [c'|e0] eqn:Hflow
  | |- context [match EmailServiceInit.write_token ?e ?p ?j with _ => _ end] =>
      destruct (EmailServiceInit.write_token e p j) as [[]|e0] eqn:Hwrite
  | |- context [match EmailServiceInit.build ?e ?x with _ => _ end] =>
      destruct (EmailServiceInit.build e x) as [service0|e0] eqn:Hbuild
  end.

Ltac authenticate_cases :=
  unfold EmailServiceInit._authenticate, EmailServiceInit.with_creds, EmailServiceInit.renew,
    EmailServiceInit.run_flow, EmailServiceInit.save_token, EmailServiceInit.build_service,
    EmailServiceInit.and_then;
  cbn; repeat (authenticate_step; cbn).

(** X26.  [_authenticate] starts the interactive flow only when the token
    file gives it nothing to work with: the file is absent, or the
    credentials read from it are not valid and cannot be refreshed (not
    expired, or without refresh token).  It refreshes only credentials
    read from the file that are not valid, expired and carry a refresh
    token, and then never starts the flow as well. *)
Theorem authenticate_flow_only_when_needed (env : EmailServiceInit.AuthEnv)
    (credentials_path : option string) (token_path : string) :
  let evs := snd (EmailServiceInit._authenticate env credentials_path token_path) in
  (existsb is_flow evs = true ->
   EmailServiceInit.token_exists env token_path = false
   \/ exists c,
        EmailServiceInit.from_authorized_user_file env token_path = Return c
        /\ EmailServiceInit.valid c = false
        /\ EmailServiceInit.expired c
           && EmailServiceInit.nonempty (EmailServiceInit.refresh_token c) = false)
  /\ (existsb is_refresh evs = true ->
      existsb is_flow evs = false
      /\ EmailServiceInit.token_exists env token_path = true
      /\ exists c,
           EmailServiceInit.from_authorized_user_file env token_path = Return c
           /\ In (EmailServiceInit.EvRefresh c) evs
           /\ EmailServiceInit.valid c = false
           /\ EmailServiceInit.expired c = true
           /\ EmailServiceInit.nonempty (EmailServiceInit.refresh_token c) = true).
Proof.
  cbn zeta. authenticate_cases;
    (split; [intros Hf | intros Hr]); try discriminate;
    first [ by left
          | right; exists c; by rewrite ?Hexpired, ?Htoken
          | split; [done|]; split; [done|]; exists c; repeat split; try done;
            cbn; tauto ].
Qed.

(** X27.  [_authenticate] has no fall-back: when the token file exists
    but cannot be read as credentials, or when refreshing the stored
    credentials fails, the exception is raised to the caller after that
    call; the interactive flow is not tried, nothing is written and no
    service is built. *)
Theorem authenticate_no_fallback (env : EmailServiceInit.AuthEnv)
    (credentials_path : option string) (token_path : string) (e : PyExc) :
  EmailServiceInit.token_exists env token_path = true ->
  (EmailServiceInit.from_authorized_user_file env token_path = Raise e
   \/ exists c,
        EmailServiceInit.from_authorized_user_file env token_path = Return c
        /\ EmailServiceInit.valid c = false
        /\ EmailServiceInit.expired c = true
        /\ EmailServiceInit.nonempty (EmailServiceInit.refresh_token c) = true
        /\ EmailServiceInit.refresh env c = Raise e) ->
  fst (EmailServiceInit._authenticate env credentials_path token_path) = Raise e
  /\ forallb (fun ev => negb (is_flow ev) && negb (is_write ev) && negb (is_build ev))
       (snd (EmailServiceInit._authenticate env credentials_path token_path)) = true.
Proof.
  intros Hex [Hl|(c & Hl & Hv & Hx & Ht & Hr)];
    unfold EmailServiceInit._authenticate, EmailServiceInit.with_creds,
      EmailServiceInit.renew, EmailServiceInit.and_then;
    rewrite Hex; cbn; rewrite Hl; cbn; [done|].
  rewrite Hv, Hx, Ht. cbn. by rewrite Hr.
Qed.

Lemma authenticate_no_fallback_witness :
  fst (EmailServiceInit._authenticate
         (Tokens.env (Return Tokens.stale) (Raise (Exc "RefreshError" "invalid_grant")))
         (Some "credentials.json") "token.json")
  = Raise (Exc "RefreshError" "invalid_grant").
Proof.
  destruct (authenticate_no_fallback
              (Tokens.env (Return Tokens.stale) (Raise (Exc "RefreshError" "invalid_grant")))
              (Some "credentials.json") "token.json" (Exc "RefreshError" "invalid_grant")
              eq_refl) as [H _].
  - right. exists Tokens.stale. by repeat split.
  - exact H.
Defined.

(** X28.  [__init__] reads the directory before it authenticates: when
    the contacts file cannot be loaded nothing else is called, not even
    the check of the token file.  An object it returns holds exactly the
    directory that was loaded and the service that [build] returned as
    the last call made. *)
Theorem init_outcome (env : EmailServiceInit.AuthEnv) (credentials_path : option string)
    (token_path : string) :
  match EmailServiceInit.__init__ env credentials_path token_path with
  | (Return self, evs) =>
      EmailServiceInit.load_contacts env (EmailServiceInit.contacts_path env)
      = Return (EmailService.contacts self)
      /\ exists pre c,
           evs = EmailServiceInit.EvOpenContacts (EmailServiceInit.contacts_path env)
                 :: pre ++ [EmailServiceInit.EvBuild c]
           /\ EmailServiceInit.build env c = Return (EmailService.service self)
  | (Raise e, evs) =>
      (EmailServiceInit.load_contacts env (EmailServiceInit.contacts_path env) = Raise e
       /\ evs = [EmailServiceInit.EvOpenContacts (EmailServiceInit.contacts_path env)])
      \/ (exists contacts,
            EmailServiceInit.load_contacts env (EmailServiceInit.contacts_path env)
            = Return contacts
            /\ EmailServiceInit._authenticate env credentials_path token_path
               = (Raise e, tl evs))
  end.
Proof.
  unfold EmailServiceInit.__init__, EmailServiceInit.and_then.
  destruct (EmailServiceInit.load_contacts env _) as [contacts|e] eqn:Hc; [|by left].
  destruct (EmailServiceInit._authenticate env credentials_path token_path)
    as [[service|e] evs] eqn:Ha; cbn; [|right; by exists contacts].
  split; [done|]. revert Ha.
  authenticate_cases; intros [= <- <-];
    first [ by eexists [_; _], _
          | by eexists [_; _; _; _], _
          | by eexists [_; _; _; _; _], _
          | by eexists [_; _; _], _ ].
Qed.
